(** * Author-api: the credit ledger, account resolution and cross-site
      handoff of [books/views.py], over the tables of [books/models.py].

    The Django views are embedded as functions in a state-and-exception
    monad over an explicit database value.  Rows are records, tables are
    lists of rows in insertion order, and the cache backend is a finite
    map from keys to entries with a deadline.  An ORM call that raises in
    Python raises in the monad; writes made before the exception stay
    (the views open no [transaction.atomic] block). *)

From Stdlib Require Import ZArith List.
From stdpp Require Import base decidable option list strings gmap.

Local Open Scope string_scope.
Local Open Scope Z_scope.
Local Open Scope list_scope.

(** ** Rows of [books/models.py] (and of Django's [User]) *)

Module User.
Record t := mk {
  id : Z;
  username : string;
  email : string;
  password : option string;   (* [None]: unusable password *)
  first_name : string;
  last_name : string
}.
End User.

Module UserProfile.
Record t := mk {
  id : Z;
  user : Z;                   (* OneToOneField(User) *)
  google_id : string;         (* unique *)
  referral_code : string;     (* unique, default uuid4 *)
  referred_by : option Z;     (* ForeignKey('self', null=True) *)
  credits : Z;
  total_credits_earned : Z;
  total_credits_spent : Z
}.

Definition set_credits (c : Z) (p : t) : t :=
  mk (id p) (user p) (google_id p) (referral_code p) (referred_by p)
     c (total_credits_earned p) (total_credits_spent p).
Definition set_total_credits_earned (e : Z) (p : t) : t :=
  mk (id p) (user p) (google_id p) (referral_code p) (referred_by p)
     (credits p) e (total_credits_spent p).
Definition set_total_credits_spent (x : Z) (p : t) : t :=
  mk (id p) (user p) (google_id p) (referral_code p) (referred_by p)
     (credits p) (total_credits_earned p) x.
Definition set_referred_by (r : option Z) (p : t) : t :=
  mk (id p) (user p) (google_id p) (referral_code p) r
     (credits p) (total_credits_earned p) (total_credits_spent p).
Definition set_google_id (g : string) (p : t) : t :=
  mk (id p) (user p) g (referral_code p) (referred_by p)
     (credits p) (total_credits_earned p) (total_credits_spent p).
End UserProfile.

Module BookSite.
Record t := mk {
  id : Z;
  name : string;
  domain : string;            (* unique *)
  api_key : string;           (* unique *)
  is_active : bool
}.
End BookSite.

Module UserSiteActivity.
Record t := mk {
  id : Z;
  user : Z;                   (* ForeignKey(UserProfile) *)
  site : Z;                   (* ForeignKey(BookSite) *)
  total_visits : Z
}.                            (* unique_together = ('user', 'site') *)
End UserSiteActivity.

Module CreditTransaction.
Record t := mk {
  id : Z;
  user : Z;                   (* ForeignKey(UserProfile) *)
  site : option Z;            (* ForeignKey(BookSite, null=True) *)
  transaction_type : string;
  amount : Z;
  description : string
}.
End CreditTransaction.

Module Book.
Record t := mk {
  id : Z;
  title : string;
  chapter_credit_cost : Z
}.
End Book.

Module UserBook.
Record t := mk {
  id : Z;
  user : Z;                   (* ForeignKey(UserProfile) *)
  book : Z;                   (* ForeignKey(Book) *)
  unlocked_chapters : Z
}.
End UserBook.

(** The payload [cache_data] that [generate_auth_code] stores. *)
Record AuthData := mkAuthData {
  ad_user_id : Z;
  ad_target_site_id : Z;
  ad_expires_at : Z
}.

(** ** The database and the cache *)

Record DB := mkDB {
  users : list User.t;
  profiles : list UserProfile.t;
  sites : list BookSite.t;
  activities : list UserSiteActivity.t;
  transactions : list CreditTransaction.t;
  books : list Book.t;
  user_books : list UserBook.t;
  cache : gmap string (AuthData * Z)   (* value, deadline in seconds *)
}.

Definition with_users (v : list User.t) (d : DB) : DB :=
  mkDB v (profiles d) (sites d) (activities d) (transactions d)
       (books d) (user_books d) (cache d).
Definition with_profiles (v : list UserProfile.t) (d : DB) : DB :=
  mkDB (users d) v (sites d) (activities d) (transactions d)
       (books d) (user_books d) (cache d).
Definition with_activities (v : list UserSiteActivity.t) (d : DB) : DB :=
  mkDB (users d) (profiles d) (sites d) v (transactions d)
       (books d) (user_books d) (cache d).
Definition with_transactions (v : list CreditTransaction.t) (d : DB) : DB :=
  mkDB (users d) (profiles d) (sites d) (activities d) v
       (books d) (user_books d) (cache d).
Definition with_user_books (v : list UserBook.t) (d : DB) : DB :=
  mkDB (users d) (profiles d) (sites d) (activities d) (transactions d)
       (books d) v (cache d).
Definition with_cache (v : gmap string (AuthData * Z)) (d : DB) : DB :=
  mkDB (users d) (profiles d) (sites d) (activities d) (transactions d)
       (books d) (user_books d) v.

(** What a request sees of the world outside the database: the clock, and
    whether the storage behind [UserSiteActivity] answers (when it does
    not, every ORM call on that table raises [DatabaseError]). *)
Record Env := mkEnv {
  now : Z;
  activity_storage_ok : bool
}.

(** ** Exceptions and the view monad *)

Inductive Model :=
| MUser | MUserProfile | MBookSite | MUserSiteActivity | MBook | MUserBook.

Global Instance Model_eq_dec : EqDecision Model.
Proof. solve_decision. Defined.

Inductive Exn :=
| DoesNotExist (model : Model)
| MultipleObjectsReturned
| IntegrityError
| DatabaseError
| KeyError
| ValueError
| AttributeError
| OverflowError.

Global Instance Exn_eq_dec : EqDecision Exn.
Proof. solve_decision. Defined.

Inductive Result (A : Type) :=
| Ok (a : A)
| Raise (e : Exn).
Arguments Ok {A} a.
Arguments Raise {A} e.

Definition M (A : Type) : Type := DB -> DB * Result A.

Definition ret {A} (a : A) : M A := fun d => (d, Ok a).
Definition raise {A} (e : Exn) : M A := fun d => (d, Raise e).
Definition bind {A B} (m : M A) (k : A -> M B) : M B :=
  fun d => match m d with
           | (d', Ok a) => k a d'
           | (d', Raise e) => (d', Raise e)
           end.
Definition read {A} (f : DB -> A) : M A := fun d => (d, Ok (f d)).
Definition modify (f : DB -> DB) : M unit := fun d => (f d, Ok tt).
Definition lift {A} (r : Result A) : M A := fun d => (d, r).

(** [try: body except <catches>: handler] *)
Definition try_except {A} (body : M A) (catches : Exn -> bool)
    (handler : M A) : M A :=
  fun d => match body d with
           | (d', Raise e) => if catches e then handler d' else (d', Raise e)
           | r => r
           end.

Definition only (e0 : Exn) (e : Exn) : bool := bool_decide (e = e0).
Definition either (e0 e1 : Exn) (e : Exn) : bool :=
  bool_decide (e = e0) || bool_decide (e = e1).
Definition any_exception (e : Exn) : bool := true.

Notation "'let*' x ':=' m 'in' k" := (bind m (fun x => k))
  (at level 10, x name, m at level 100, k at level 200).
Notation "m1 ';;' m2" := (bind m1 (fun _ => m2))
  (at level 100, m2 at level 200, right associativity).

(** ** The ORM calls the views use *)

(** [Model.objects.get(...)]: the single matching row, [DoesNotExist]
    when there is none, [MultipleObjectsReturned] when there are several. *)
Definition objects_get {A} (model : Model) (P : A -> bool) (rows : list A)
    : Result A :=
  match List.filter P rows with
  | [] => Raise (DoesNotExist model)
  | [x] => Ok x
  | _ => Raise MultipleObjectsReturned
  end.

(** The next value of an auto-increment primary key. *)
Definition next_id (ids : list Z) : Z := 1 + foldr Z.max 0 ids.

(** [instance.save()] of a row that has a primary key: UPDATE the row with
    that key, INSERT when no row has it. *)
Definition save_row {A} (key : A -> Z) (x : A) (rows : list A) : list A :=
  if existsb (fun y => bool_decide (key y = key x)) rows
  then (fun y => if bool_decide (key y = key x) then x else y) <$> rows
  else rows ++ [x].

(** What an [IntegerField] column takes.  The value is bound to the
    statement as a signed 64-bit integer (SQLite, the backend of Django's
    default settings); a Python int outside that range makes the call
    raise [OverflowError] before anything is written.  The views validate
    no amount, so the bound is met first by [update_credits], whose amount
    comes from the request.  The counters [unlocked_chapters] and
    [total_visits] are only ever raised by one from a stored value and are
    kept unbounded here. *)
Definition INTEGER_MIN : Z := -9223372036854775808.
Definition INTEGER_MAX : Z := 9223372036854775807.

Definition fits (z : Z) : bool := (INTEGER_MIN <=? z) && (z <=? INTEGER_MAX).

(** The integer columns of an account row that the views assign. *)
Definition storable (p : UserProfile.t) : bool :=
  fits (UserProfile.credits p)
  && fits (UserProfile.total_credits_earned p)
  && fits (UserProfile.total_credits_spent p).

(** Python truthiness of an optional string ([None] and [''] are falsy). *)
Definition truthy (o : option string) : bool :=
  match o with
  | None => false
  | Some s => negb (bool_decide (s = EmptyString))
  end.

(** [d.get(key, default)] on request data. *)
Definition get_default {A} (o : option A) (default : A) : A :=
  match o with Some a => a | None => default end.

(** [queryset.last()]: the row with the greatest primary key. *)
Definition objects_last {A} (key : A -> Z) (rows : list A) : option A :=
  foldl (fun acc x => match acc with
                      | None => Some x
                      | Some y => if key y <? key x then Some x else Some y
                      end) None rows.

Definition BookSite_get_by_api_key (key : string) : M BookSite.t :=
  fun d => (d, objects_get MBookSite
     (fun s => bool_decide (BookSite.api_key s = key) && BookSite.is_active s)
     (sites d)).

Definition BookSite_get_by_domain (dom : string) : M BookSite.t :=
  fun d => (d, objects_get MBookSite
     (fun s => bool_decide (BookSite.domain s = dom) && BookSite.is_active s)
     (sites d)).

Definition User_get_by_id (uid : Z) : M User.t :=
  fun d => (d, objects_get MUser
     (fun u => bool_decide (User.id u = uid)) (users d)).

Definition User_get_by_email (e : string) : M User.t :=
  fun d => (d, objects_get MUser
     (fun u => bool_decide (User.email u = e)) (users d)).

Definition User_email_exists (e : string) : M bool :=
  read (fun d => existsb (fun u => bool_decide (User.email u = e)) (users d)).

Definition UserProfile_get_by_id (pid : Z) : M UserProfile.t :=
  fun d => (d, objects_get MUserProfile
     (fun p => bool_decide (UserProfile.id p = pid)) (profiles d)).

Definition UserProfile_get_by_user (uid : Z) : M UserProfile.t :=
  fun d => (d, objects_get MUserProfile
     (fun p => bool_decide (UserProfile.user p = uid)) (profiles d)).

Definition UserProfile_get_by_referral_code (c : string) : M UserProfile.t :=
  fun d => (d, objects_get MUserProfile
     (fun p => bool_decide (UserProfile.referral_code p = c)) (profiles d)).

Definition UserProfile_get_by_google_id (g : string) : M UserProfile.t :=
  fun d => (d, objects_get MUserProfile
     (fun p => bool_decide (UserProfile.google_id p = g)) (profiles d)).

Definition Book_get_by_id (bid : Z) : M Book.t :=
  fun d => (d, objects_get MBook
     (fun b => bool_decide (Book.id b = bid)) (books d)).

(** [django.contrib.auth.authenticate]: the user whose username is the
    given one and whose password is the given one, or [None].  Password
    hashing is left out: a stored password is compared as it is. *)
Definition authenticate (uname pw : string) : M (option User.t) :=
  read (fun d => List.find
     (fun u => bool_decide (User.username u = uname)
               && bool_decide (User.password u = Some pw)) (users d)).

(** [User.objects.create_user]: [username] is unique. *)
Definition User_create_user (uname mail : string) (pw : option string)
    (first last : string) : M User.t :=
  fun d =>
    if existsb (fun u => bool_decide (User.username u = uname)) (users d)
    then (d, Raise IntegrityError)
    else let u := User.mk (next_id (User.id <$> users d))
                          uname mail pw first last in
         (with_users (users d ++ [u]) d, Ok u).

(** [UserProfile.objects.create(user=, google_id=, credits=)]: the other
    columns take their defaults, [referral_code] the value [code] that
    [uuid.uuid4] returns; [user], [google_id] and [referral_code] are
    unique. *)
Definition UserProfile_create (code : string) (uid : Z) (gid : string)
    (c : Z) : M UserProfile.t :=
  fun d =>
    if existsb (fun p => bool_decide (UserProfile.user p = uid)
                         || bool_decide (UserProfile.google_id p = gid)
                         || bool_decide (UserProfile.referral_code p = code))
               (profiles d)
    then (d, Raise IntegrityError)
    else let p := UserProfile.mk (next_id (UserProfile.id <$> profiles d))
                                 uid gid code None c 0 0 in
         (with_profiles (profiles d ++ [p]) d, Ok p).

(** [profile.save()]: every column is bound to the UPDATE, so a balance
    or a lifetime counter outside the column range raises [OverflowError]
    and no row is written. *)
Definition UserProfile_save (p : UserProfile.t) : M unit :=
  fun d =>
    if negb (storable p) then (d, Raise OverflowError)
    else (with_profiles (save_row UserProfile.id p (profiles d)) d, Ok tt).

Definition UserBook_save (b : UserBook.t) : M unit :=
  modify (fun d => with_user_books (save_row UserBook.id b (user_books d)) d).

(** [CreditTransaction.objects.create(...)]: [amount] is an
    [IntegerField]. *)
Definition CreditTransaction_create (uid : Z) (sid : option Z)
    (ty : string) (amt : Z) (descr : string) : M CreditTransaction.t :=
  fun d =>
    if negb (fits amt) then (d, Raise OverflowError)
    else
    let t := CreditTransaction.mk
               (next_id (CreditTransaction.id <$> transactions d))
               uid sid ty amt descr in
    (with_transactions (transactions d ++ [t]) d, Ok t).

Definition same_pair (uid sid : Z) (a : UserSiteActivity.t) : bool :=
  bool_decide (UserSiteActivity.user a = uid)
  && bool_decide (UserSiteActivity.site a = sid).

(** [UserSiteActivity.objects.create]: [(user, site)] is unique together. *)
Definition UserSiteActivity_create (env : Env) (uid sid visits : Z)
    : M UserSiteActivity.t :=
  fun d =>
    if negb (activity_storage_ok env) then (d, Raise DatabaseError)
    else if existsb (same_pair uid sid) (activities d)
    then (d, Raise IntegrityError)
    else let a := UserSiteActivity.mk
                    (next_id (UserSiteActivity.id <$> activities d))
                    uid sid visits in
         (with_activities (activities d ++ [a]) d, Ok a).

Definition UserSiteActivity_save (env : Env) (a : UserSiteActivity.t)
    : M unit :=
  fun d =>
    if negb (activity_storage_ok env) then (d, Raise DatabaseError)
    else (with_activities (save_row UserSiteActivity.id a (activities d)) d,
          Ok tt).

(** [UserSiteActivity.objects.get_or_create(user=, site=, defaults=)] *)
Definition UserSiteActivity_get_or_create (env : Env) (uid sid : Z)
    (default_visits : Z) : M (UserSiteActivity.t * bool) :=
  fun d =>
    if negb (activity_storage_ok env) then (d, Raise DatabaseError)
    else match objects_get MUserSiteActivity (same_pair uid sid)
                 (activities d) with
         | Ok a => (d, Ok (a, false))
         | Raise (DoesNotExist _) =>
             (let* a := UserSiteActivity_create env uid sid default_visits in
              ret (a, true)) d
         | Raise e => (d, Raise e)
         end.

(** The block every login and redemption runs ("Track site activity",
    views.py 147-154, 371-378 and 474-481). *)
Definition track_activity (env : Env) (uid sid : Z) : M unit :=
  let* got := UserSiteActivity_get_or_create env uid sid 1 in
  let (activity, created) := (got : UserSiteActivity.t * bool) in
  if negb created then
    UserSiteActivity_save env
      (UserSiteActivity.mk (UserSiteActivity.id activity)
         (UserSiteActivity.user activity) (UserSiteActivity.site activity)
         (UserSiteActivity.total_visits activity + 1))
  else ret tt.

(** The cache backend: [get] answers only before the deadline. *)
Definition cache_get (env : Env) (key : string) : M (option AuthData) :=
  read (fun d => match cache d !! key with
                 | Some (v, deadline) =>
                     if now env <? deadline then Some v else None
                 | None => None
                 end).

Definition cache_set (env : Env) (key : string) (v : AuthData)
    (timeout : Z) : M unit :=
  modify (fun d => with_cache (<[key := (v, now env + timeout)]> (cache d)) d).

Definition cache_delete (key : string) : M unit :=
  modify (fun d => with_cache (delete key (cache d)) d).

(** ** Requests and responses *)

Inductive Body :=
| ErrorBody (error : string)
| CreditsBody (credits : Z) (transaction_id : Z)
| UnlockBody (unlocked_chapters : Z) (remaining_credits : Z)
| LoginBody (user : User.t) (credits : Z) (referral_code : string)
            (is_new_user : option bool)
| CodeBody (auth_code : string) (auth_url : string) (expires_in : Z).

Record Response := mkResponse {
  status : Z;
  body : Body
}.

Definition HTTP_200_OK : Z := 200.
Definition HTTP_400_BAD_REQUEST : Z := 400.
Definition HTTP_401_UNAUTHORIZED : Z := 401.
Definition HTTP_404_NOT_FOUND : Z := 404.
Definition HTTP_500_INTERNAL_SERVER_ERROR : Z := 500.

Definition error_response (msg : string) (st : Z) : Response :=
  mkResponse st (ErrorBody msg).

(** The spec's names for the failures of the ledger and of the handoff. *)
Definition InsufficientBalance : Response :=
  error_response "Insufficient credits" HTTP_400_BAD_REQUEST.
Definition InvalidOrExpiredCode : Response :=
  error_response "Invalid or expired auth code" HTTP_401_UNAUTHORIZED.
Definition SiteMismatch : Response :=
  error_response "Auth code not valid for this site" HTTP_401_UNAUTHORIZED.

Definition is_success (r : Result Response) : bool :=
  match r with
  | Ok resp => bool_decide (status resp = HTTP_200_OK)
  | Raise _ => false
  end.

(** The site lookup that opens every keyed view:
    [try: BookSite.objects.get(api_key=..., is_active=True)
     except BookSite.DoesNotExist]. *)
Definition lookup_site (key : string) : M (option BookSite.t) :=
  try_except (let* s := BookSite_get_by_api_key key in ret (Some s))
             (only (DoesNotExist MBookSite))
             (ret None).

(** ** [UserProfileViewSet.update_credits] *)

Record CreditsRequest := mkCreditsRequest {
  cr_api_key : option string;      (* header X-API-Key *)
  cr_user : Z;                     (* request.user *)
  cr_amount : option Z;
  cr_type : option string;
  cr_description : option string
}.

Definition update_credits (req : CreditsRequest) : M Response :=
  if negb (truthy (cr_api_key req)) then
    ret (error_response "API key required" HTTP_401_UNAUTHORIZED)
  else
  let* found := lookup_site (get_default (cr_api_key req) EmptyString) in
  match found with
  | None => ret (error_response "Invalid API key" HTTP_401_UNAUTHORIZED)
  | Some site =>
    let* profile := UserProfile_get_by_user (cr_user req) in
    let amount := get_default (cr_amount req) 0 in
    let transaction_type := get_default (cr_type req) "earned" in
    let description := get_default (cr_description req) EmptyString in
    (* Update credits *)
    let updated :=
      if bool_decide (transaction_type = "spent") then
        if UserProfile.credits profile <? Z.abs amount then None
        else Some
          (UserProfile.set_total_credits_spent
             (UserProfile.total_credits_spent profile + Z.abs amount)
             (UserProfile.set_credits
                (UserProfile.credits profile - Z.abs amount) profile))
      else Some
          (UserProfile.set_total_credits_earned
             (UserProfile.total_credits_earned profile + Z.abs amount)
             (UserProfile.set_credits
                (UserProfile.credits profile + Z.abs amount) profile))
    in
    match updated with
    | None => ret InsufficientBalance
    | Some profile =>
      UserProfile_save profile ;;
      (* Record transaction *)
      CreditTransaction_create (UserProfile.id profile)
        (Some (BookSite.id site)) transaction_type amount description ;;
      let* last := read (fun d =>
                     objects_last CreditTransaction.id (transactions d)) in
      match last with
      | None => raise AttributeError
      | Some t =>
          ret (mkResponse HTTP_200_OK
                 (CreditsBody (UserProfile.credits profile)
                              (CreditTransaction.id t)))
      end
    end
  end.

(** ** [UserBookViewSet.unlock_chapter] *)

Record UnlockRequest := mkUnlockRequest {
  ur_user : Z;                     (* request.user *)
  ur_pk : Z
}.

(** [self.get_object()]: the row of [get_queryset()] with the given
    primary key, or HTTP 404. *)
Definition get_object (req : UnlockRequest) : M (option UserBook.t) :=
  let* user_profile := UserProfile_get_by_user (ur_user req) in
  fun d =>
    match objects_get MUserBook
            (fun b => bool_decide (UserBook.user b = UserProfile.id user_profile)
                      && bool_decide (UserBook.id b = ur_pk req))
            (user_books d) with
    | Ok b => (d, Ok (Some b))
    | Raise (DoesNotExist _) => (d, Ok None)
    | Raise e => (d, Raise e)
    end.

Definition unlock_chapter (req : UnlockRequest) : M Response :=
  let* found := get_object req in
  match found with
  | None => ret (error_response "Not found." HTTP_404_NOT_FOUND)
  | Some user_book =>
    let* book := Book_get_by_id (UserBook.book user_book) in
    let* user_profile := UserProfile_get_by_id (UserBook.user user_book) in
    if Book.chapter_credit_cost book <=? UserProfile.credits user_profile then
      let user_profile :=
        UserProfile.set_credits
          (UserProfile.credits user_profile - Book.chapter_credit_cost book)
          user_profile in
      let user_book :=
        UserBook.mk (UserBook.id user_book) (UserBook.user user_book)
          (UserBook.book user_book) (UserBook.unlocked_chapters user_book + 1) in
      UserProfile_save user_profile ;;
      UserBook_save user_book ;;
      ret (mkResponse HTTP_200_OK
             (UnlockBody (UserBook.unlocked_chapters user_book)
                         (UserProfile.credits user_profile)))
    else
      ret (error_response "Insufficient credits" HTTP_400_BAD_REQUEST)
  end.

(** ** [distributed_login] *)

Record LoginRequest := mkLoginRequest {
  lr_api_key : option string;      (* header X-API-Key *)
  lr_email : option string;
  lr_password : option string;
  lr_referral_code : option string;
  lr_first_name : option string;
  lr_last_name : option string
}.

(** The values [uuid.uuid4] and [secrets.token_urlsafe] return during the
    request, and the identity provider's verdict on a token. *)
Record IdInfo := mkIdInfo {
  sub : option string;
  id_email : option string;
  given_name : option string;
  family_name : option string
}.

Record Oracle := mkOracle {
  uuid4 : string;
  token_urlsafe : string;
  verify_oauth2_token : string -> Result IdInfo
}.

Definition login_response (user : User.t) (profile : UserProfile.t)
    (is_new_user : option bool) : Response :=
  mkResponse HTTP_200_OK
    (LoginBody user (UserProfile.credits profile)
               (UserProfile.referral_code profile) is_new_user).

Definition distributed_login (env : Env) (rnd : Oracle) (req : LoginRequest)
    : M Response :=
  if negb (truthy (lr_api_key req)) then
    ret (error_response "API key required" HTTP_401_UNAUTHORIZED)
  else
  let* found := lookup_site (get_default (lr_api_key req) EmptyString) in
  match found with
  | None => ret (error_response "Invalid API key" HTTP_401_UNAUTHORIZED)
  | Some site =>
    if negb (truthy (lr_email req)) || negb (truthy (lr_password req)) then
      ret (error_response "Email and password required" HTTP_400_BAD_REQUEST)
    else
    let email := get_default (lr_email req) EmptyString in
    let password := get_default (lr_password req) EmptyString in
    (* Try to authenticate existing user *)
    let* authenticated := authenticate email password in
    match authenticated with
    | Some user =>
      (* Existing user login *)
      let* profile := UserProfile_get_by_user (User.id user) in
      track_activity env (UserProfile.id profile) (BookSite.id site) ;;
      ret (login_response user profile (Some false))
    | None =>
      (* User doesn't exist - create new account *)
      try_except
        (let* taken := User_email_exists email in
         if (taken : bool) then
           ret (error_response "Invalid credentials" HTTP_401_UNAUTHORIZED)
         else
         let* user := User_create_user email email (Some password)
                        (get_default (lr_first_name req) EmptyString)
                        (get_default (lr_last_name req) EmptyString) in
         let* profile := UserProfile_create (uuid4 rnd) (User.id user) EmptyString 5 in
         (* Process referral if provided *)
         let* profile :=
           if truthy (lr_referral_code req) then
             try_except
               (let* referrer := UserProfile_get_by_referral_code
                                   (get_default (lr_referral_code req) EmptyString) in
                if negb (bool_decide (UserProfile.id referrer
                                      = UserProfile.id profile)) then
                  let profile :=
                    UserProfile.set_total_credits_earned 10
                      (UserProfile.set_credits (UserProfile.credits profile + 5)
                         (UserProfile.set_referred_by
                            (Some (UserProfile.id referrer)) profile)) in
                  UserProfile_save profile ;;
                  (* Give referrer bonus *)
                  let referrer :=
                    UserProfile.set_total_credits_earned
                      (UserProfile.total_credits_earned referrer + 10)
                      (UserProfile.set_credits
                         (UserProfile.credits referrer + 10) referrer) in
                  UserProfile_save referrer ;;
                  (* Record transactions *)
                  CreditTransaction_create (UserProfile.id profile)
                    (Some (BookSite.id site)) "welcome_bonus" 10
                    "Welcome bonus + referral bonus" ;;
                  CreditTransaction_create (UserProfile.id referrer)
                    (Some (BookSite.id site)) "referral_bonus" 10
                    (String.append "Referral bonus for " (User.email user)) ;;
                  ret profile
                else ret profile)
               (only (DoesNotExist MUserProfile))
               (let profile :=
                  UserProfile.set_total_credits_earned 5 profile in
                UserProfile_save profile ;;
                CreditTransaction_create (UserProfile.id profile)
                  (Some (BookSite.id site)) "welcome_bonus" 5
                  "Welcome bonus" ;;
                ret profile)
           else
             let profile := UserProfile.set_total_credits_earned 5 profile in
             UserProfile_save profile ;;
             CreditTransaction_create (UserProfile.id profile)
               (Some (BookSite.id site)) "welcome_bonus" 5 "Welcome bonus" ;;
             ret profile
         in
         (* Track site activity *)
         UserSiteActivity_create env (UserProfile.id profile)
           (BookSite.id site) 1 ;;
         ret (login_response user profile (Some true)))
        any_exception
        (ret (error_response "Failed to create account"
                HTTP_500_INTERNAL_SERVER_ERROR))
    end
  end.

(** ** [google_sso_login] *)

Record GoogleRequest := mkGoogleRequest {
  gr_api_key : option string;
  gr_google_token : option string;
  gr_referral_code : option string
}.

(** [d[key]] on the verified claims. *)
Definition item (o : option string) : M string :=
  match o with Some v => ret v | None => raise KeyError end.

Definition google_sso_login (env : Env) (rnd : Oracle) (req : GoogleRequest)
    : M Response :=
  if negb (truthy (gr_api_key req)) || negb (truthy (gr_google_token req)) then
    ret (error_response "API key and Google token required"
           HTTP_400_BAD_REQUEST)
  else
  let* found := lookup_site (get_default (gr_api_key req) EmptyString) in
  match found with
  | None => ret (error_response "Invalid API key" HTTP_401_UNAUTHORIZED)
  | Some site =>
    try_except (try_except
      ((* Verify Google token *)
       let* idinfo := lift (verify_oauth2_token rnd
                              (get_default (gr_google_token req) EmptyString)) in
       let* google_id := item (sub idinfo) in
       let* email := item (id_email idinfo) in
       let first_name := get_default (given_name idinfo) EmptyString in
       let last_name := get_default (family_name idinfo) EmptyString in
       (* Try to find existing user *)
       let* resolved :=
         try_except
           (let* profile := UserProfile_get_by_google_id google_id in
            let* user := User_get_by_id (UserProfile.user profile) in
            ret (user, profile, false))
           (only (DoesNotExist MUserProfile))
           (try_except
              ((* Check if user exists with this email *)
               let* user := User_get_by_email email in
               let* profile := UserProfile_get_by_user (User.id user) in
               (* Link Google account *)
               let profile := UserProfile.set_google_id google_id profile in
               UserProfile_save profile ;;
               ret (user, profile, false))
              (either (DoesNotExist MUser) (DoesNotExist MUserProfile))
              ((* Create new user *)
               let* user := User_create_user email email None
                              first_name last_name in
               let* profile := UserProfile_create (uuid4 rnd) (User.id user)
                                 google_id 5 in
               (* Process referral *)
               let* profile :=
                 if truthy (gr_referral_code req) then
                   try_except
                     (let* referrer := UserProfile_get_by_referral_code
                                  (get_default (gr_referral_code req) EmptyString) in
                      if negb (bool_decide (UserProfile.id referrer
                                            = UserProfile.id profile)) then
                        let profile :=
                          UserProfile.set_total_credits_earned 10
                            (UserProfile.set_credits
                               (UserProfile.credits profile + 5)
                               (UserProfile.set_referred_by
                                  (Some (UserProfile.id referrer)) profile)) in
                        UserProfile_save profile ;;
                        let referrer :=
                          UserProfile.set_total_credits_earned
                            (UserProfile.total_credits_earned referrer + 10)
                            (UserProfile.set_credits
                               (UserProfile.credits referrer + 10) referrer) in
                        UserProfile_save referrer ;;
                        CreditTransaction_create (UserProfile.id profile)
                          (Some (BookSite.id site)) "welcome_bonus" 10
                          "Welcome + referral bonus" ;;
                        CreditTransaction_create (UserProfile.id referrer)
                          (Some (BookSite.id site)) "referral_bonus" 10
                          (String.append "Referral bonus for "
                                         (User.email user)) ;;
                        ret profile
                      else ret profile)
                     (only (DoesNotExist MUserProfile))
                     (let profile :=
                        UserProfile.set_total_credits_earned 5 profile in
                      UserProfile_save profile ;;
                      ret profile)
                 else ret profile
               in
               ret (user, profile, true)))
       in
       let '(user, profile, is_new_user) :=
         (resolved : User.t * UserProfile.t * bool) in
       (* Track activity *)
       track_activity env (UserProfile.id profile) (BookSite.id site) ;;
       ret (login_response user profile (Some is_new_user)))
      (only ValueError)
      (ret (error_response "Invalid Google token" HTTP_401_UNAUTHORIZED)))
     any_exception
     (ret (error_response "Login failed" HTTP_500_INTERNAL_SERVER_ERROR))
  end.

(** ** [generate_auth_code] and [exchange_auth_code] *)

Record GenerateRequest := mkGenerateRequest {
  gen_user : Z;                    (* request.user *)
  gen_target_site : option string
}.

Definition cache_key_of (auth_code : string) : string :=
  String.append "auth_code:" auth_code.

Definition generate_auth_code (env : Env) (rnd : Oracle)
    (req : GenerateRequest) : M Response :=
  if negb (truthy (gen_target_site req)) then
    ret (error_response "target_site required" HTTP_400_BAD_REQUEST)
  else
  let target_site_domain := get_default (gen_target_site req) EmptyString in
  let* found :=
    try_except (let* s := BookSite_get_by_domain target_site_domain in
                ret (Some s))
               (only (DoesNotExist MBookSite)) (ret None) in
  match found with
  | None => ret (error_response "Invalid target site" HTTP_400_BAD_REQUEST)
  | Some target_site =>
    (* Generate auth code *)
    let auth_code := String.append "AC_" (token_urlsafe rnd) in
    let expires_at := now env + 300 in
    let* profile := UserProfile_get_by_user (gen_user req) in
    (* Store in cache *)
    let cache_data :=
      mkAuthData (gen_user req) (BookSite.id target_site) expires_at in
    cache_set env (cache_key_of auth_code) cache_data 300 ;;
    ret (mkResponse HTTP_200_OK
           (CodeBody auth_code
              (String.append "https://"
                 (String.append target_site_domain
                    (String.append "/auth/login?code=" auth_code)))
              300))
  end.

Record ExchangeRequest := mkExchangeRequest {
  ex_code : option string;
  ex_api_key : option string
}.

Definition exchange_auth_code (env : Env) (req : ExchangeRequest)
    : M Response :=
  if negb (truthy (ex_api_key req)) || negb (truthy (ex_code req)) then
    ret (error_response "API key and auth code required" HTTP_400_BAD_REQUEST)
  else
  let* found := lookup_site (get_default (ex_api_key req) EmptyString) in
  match found with
  | None => ret (error_response "Invalid API key" HTTP_401_UNAUTHORIZED)
  | Some site =>
    (* Get auth data from cache *)
    let cache_key := cache_key_of (get_default (ex_code req) EmptyString) in
    let* cached := cache_get env cache_key in
    match cached with
    | None => ret InvalidOrExpiredCode
    | Some auth_data =>
      (* Verify target site *)
      if negb (bool_decide (ad_target_site_id auth_data = BookSite.id site))
      then ret SiteMismatch
      else
      (* Delete code (single use) *)
      cache_delete cache_key ;;
      let* resolved :=
        try_except
          (let* user := User_get_by_id (ad_user_id auth_data) in
           let* profile := UserProfile_get_by_user (User.id user) in
           ret (Some (user, profile)))
          (either (DoesNotExist MUser) (DoesNotExist MUserProfile))
          (ret None) in
      match resolved with
      | None => ret (error_response "User not found" HTTP_404_NOT_FOUND)
      | Some (user, profile) =>
        (* Track activity *)
        track_activity env (UserProfile.id profile) (BookSite.id site) ;;
        ret (login_response user profile None)
      end
    end
  end.

(** ** Properties the claims speak of *)

(** The ledger invariant of one account row:
    balance = lifetime earned - lifetime spent. *)
Definition ledger_invariant (p : UserProfile.t) : Prop :=
  UserProfile.credits p
  = UserProfile.total_credits_earned p - UserProfile.total_credits_spent p.

(** The signed amount as the spec's ledger engine resolves it from the
    kind and the magnitude (spec 4.1: spent decreases, every other kind
    increases).  The views never compute it; it is here to be compared
    with what [update_credits] records. *)
Definition spec_resolved_signed_amount (kind : string) (magnitude : Z) : Z :=
  if bool_decide (kind = "spent") then - magnitude else magnitude.

(** The rows of [UserSiteActivity] for one (account, site) pair. *)
Definition visit_rows (uid sid : Z) (acts : list UserSiteActivity.t)
    : list UserSiteActivity.t :=
  List.filter (same_pair uid sid) acts.

(** What the database guarantees of [UserSiteActivity]: primary keys are
    unique, and so is [(user, site)] ([unique_together]). *)
Definition activities_wf (acts : list UserSiteActivity.t) : Prop :=
  NoDup (UserSiteActivity.id <$> acts)
  /\ forall uid sid, (length (visit_rows uid sid acts) <= 1)%nat.


(** One visit of [(uid, sid)] was recorded between two states of the
    table: the pair's row was created with counter 1, or its one row had
    its counter raised by 1; the rows of every other pair are as before. *)
Definition visit_recorded (uid sid : Z)
    (before after : list UserSiteActivity.t) : Prop :=
  match visit_rows uid sid before with
  | [] => exists a, visit_rows uid sid after = [a]
                    /\ UserSiteActivity.total_visits a = 1
  | [a] => exists a', visit_rows uid sid after = [a']
                      /\ UserSiteActivity.id a' = UserSiteActivity.id a
                      /\ UserSiteActivity.total_visits a'
                         = UserSiteActivity.total_visits a + 1
  | _ => False
  end
  /\ forall uid' sid', (uid', sid') <> (uid, sid) ->
       visit_rows uid' sid' after = visit_rows uid' sid' before.

(** The three ways an account arrives through a site. *)
Inductive Visit :=
| PasswordLogin (rnd : Oracle) (req : LoginRequest)
| FederatedLogin (rnd : Oracle) (req : GoogleRequest)
| Redeem (req : ExchangeRequest).

Definition visit (env : Env) (v : Visit) : M Response :=
  match v with
  | PasswordLogin rnd req => distributed_login env rnd req
  | FederatedLogin rnd req => google_sso_login env rnd req
  | Redeem req => exchange_auth_code env req
  end.

Definition visit_api_key (v : Visit) : string :=
  match v with
  | PasswordLogin _ req => get_default (lr_api_key req) EmptyString
  | FederatedLogin _ req => get_default (gr_api_key req) EmptyString
  | Redeem req => get_default (ex_api_key req) EmptyString
  end.



(** How often the pair occurs in a trace. *)
Definition visits_in (uid sid : Z) (trace : list (Z * Z)) : Z :=
  Z.of_nat (length (List.filter (fun p => bool_decide (p = (uid, sid)))
                      trace)).


(** ** A small network on which the views are run *)

Module Sample.
Definition alpha : BookSite.t :=
  BookSite.mk 1 "Alpha Books" "alpha.example" "key-alpha" true.
Definition beta : BookSite.t :=
  BookSite.mk 2 "Beta Books" "beta.example" "key-beta" true.

Definition alice : User.t :=
  User.mk 1 "alice@example.com" "alice@example.com" (Some "wonderland")
          "Alice" "Liddell".
Definition alice_profile : UserProfile.t :=
  UserProfile.mk 1 1 "g-alice" "REF-ALICE" None 5 5 0.

Definition novel : Book.t := Book.mk 1 "A Novel" 1.
Definition alice_novel : UserBook.t := UserBook.mk 1 1 1 0.

Definition db : DB :=
  mkDB [alice] [alice_profile] [alpha; beta] [] [] [novel] [alice_novel] ∅.

Definition env : Env := mkEnv 1000 true.

Definition bob_claims : IdInfo :=
  mkIdInfo (Some "g-bob") (Some "bob@example.com") (Some "Bob") None.
Definition oracle : Oracle :=
  mkOracle "REF-NEW" "tok"
    (fun t => if bool_decide (t = "bob-token") then Ok bob_claims
              else Raise ValueError).

(** Alice, on some site, asks for a handoff code to beta.example. *)
Definition db_with_code : DB :=
  (generate_auth_code env oracle
     (mkGenerateRequest 1 (Some "beta.example")) db).1.
End Sample.

(** ** Two redemptions in flight

    [exchange_auth_code] reads the cache ([cache.get], views.py 455) and
    removes the key ([cache.delete], views.py 465) in two separate calls on
    the shared cache.  A request in flight is therefore cut at that point:
    [exchange_lookup] is the view up to the site check of line 461,
    [exchange_finish] is the view from the delete of line 465 on, and a
    schedule says which of two requests runs its next piece. *)

Definition exchange_lookup (env : Env) (req : ExchangeRequest)
    : M (Response + BookSite.t * string * AuthData) :=
  if negb (truthy (ex_api_key req)) || negb (truthy (ex_code req)) then
    ret (inl (error_response "API key and auth code required"
                HTTP_400_BAD_REQUEST))
  else
  let* found := lookup_site (get_default (ex_api_key req) EmptyString) in
  match found with
  | None => ret (inl (error_response "Invalid API key" HTTP_401_UNAUTHORIZED))
  | Some site =>
    let cache_key := cache_key_of (get_default (ex_code req) EmptyString) in
    let* cached := cache_get env cache_key in
    match cached with
    | None => ret (inl InvalidOrExpiredCode)
    | Some auth_data =>
      if negb (bool_decide (ad_target_site_id auth_data = BookSite.id site))
      then ret (inl SiteMismatch)
      else ret (inr (site, cache_key, auth_data))
    end
  end.

Definition exchange_finish (env : Env) (site : BookSite.t)
    (cache_key : string) (auth_data : AuthData) : M Response :=
  cache_delete cache_key ;;
  let* resolved :=
    try_except
      (let* user := User_get_by_id (ad_user_id auth_data) in
       let* profile := UserProfile_get_by_user (User.id user) in
       ret (Some (user, profile)))
      (either (DoesNotExist MUser) (DoesNotExist MUserProfile))
      (ret None) in
  match resolved with
  | None => ret (error_response "User not found" HTTP_404_NOT_FOUND)
  | Some (user, profile) =>
    track_activity env (UserProfile.id profile) (BookSite.id site) ;;
    ret (login_response user profile None)
  end.

Inductive Redemption :=
| Arrived (req : ExchangeRequest)
| Fetched (site : BookSite.t) (cache_key : string) (auth_data : AuthData)
| Answered (r : Result Response).

Definition redemption_step (env : Env) (t : Redemption) (d : DB)
    : DB * Redemption :=
  match t with
  | Arrived req =>
      match exchange_lookup env req d with
      | (d', Ok (inl resp)) => (d', Answered (Ok resp))
      | (d', Ok (inr (site, cache_key, auth_data))) =>
          (d', Fetched site cache_key auth_data)
      | (d', Raise e) => (d', Answered (Raise e))
      end
  | Fetched site cache_key auth_data =>
      match exchange_finish env site cache_key auth_data d with
      | (d', r) => (d', Answered r)
      end
  | Answered r => (d, Answered r)
  end.

Inductive Who := First | Second.

Fixpoint run_schedule (env : Env) (schedule : list Who)
    (d : DB) (t1 t2 : Redemption) : DB * Redemption * Redemption :=
  match schedule with
  | [] => (d, t1, t2)
  | First :: rest =>
      match redemption_step env t1 d with
      | (d', t1') => run_schedule env rest d' t1' t2
      end
  | Second :: rest =>
      match redemption_step env t2 d with
      | (d', t2') => run_schedule env rest d' t1 t2'
      end
  end.

(** [arrives env key d d' resp]: a view called with the API key [key] took
    the database from [d] to [d'] and answered [resp], a 200 for [user]
    with the account row [profile], after running its activity-tracking
    step for that account and the caller's site on a database [d1] whose
    activity table is still that of [d]. *)
Definition arrives (env : Env) (key : string) (d d' : DB) (resp : Response)
    : Prop :=
  exists site profile user is_new d1,
    BookSite_get_by_api_key key d = (d, Ok site)
    /\ resp = login_response user profile is_new
    /\ profile ∈ profiles d1
    /\ UserProfile.user profile = User.id user
    /\ activities d1 = activities d
    /\ (track_activity env (UserProfile.id profile) (BookSite.id site) d1
          = (d', Ok tt)
        \/ exists a,
             UserSiteActivity_create env (UserProfile.id profile)
               (BookSite.id site) 1 d1 = (d', Ok a)).

Module Runs.
(** Alice logs in with her password through alpha.example. *)
Definition alice_login : Visit :=
  PasswordLogin Sample.oracle
    (mkLoginRequest (Some "key-alpha") (Some "alice@example.com")
       (Some "wonderland") None None None).

(** The same through beta.example, and with a wrong password. *)
Definition alice_login_beta : Visit :=
  PasswordLogin Sample.oracle
    (mkLoginRequest (Some "key-beta") (Some "alice@example.com")
       (Some "wonderland") None None None).
Definition alice_wrong_password : Visit :=
  PasswordLogin Sample.oracle
    (mkLoginRequest (Some "key-alpha") (Some "alice@example.com")
       (Some "mad-hatter") None None None).

Definition after_one_login : DB :=
  (visit Sample.env alice_login Sample.db).1.
Definition after_beta_login : DB :=
  (visit Sample.env alice_login_beta after_one_login).1.
Definition after_wrong_password : DB :=
  (visit Sample.env alice_wrong_password after_beta_login).1.
Definition after_two_logins : DB :=
  (visit Sample.env alice_login after_wrong_password).1.

(** The same clock, with the activity storage failing. *)
Definition env_down : Env := mkEnv 1000 false.

(** Alice arrives in the three ways: with her password and with her
    Google account through alpha.example, and with the handoff code of
    [Sample.db_with_code] through beta.example; the code is then
    presented a second time. *)
Definition alice_claims : IdInfo :=
  mkIdInfo (Some "g-alice") (Some "alice@example.com") (Some "Alice")
           (Some "Liddell").
Definition alice_oracle : Oracle :=
  mkOracle "REF-NEW" "tok"
    (fun t => if bool_decide (t = "alice-token") then Ok alice_claims
              else Raise ValueError).


(** Carol and then Dave sign up with a password through alpha.example,
    each with Alice's referral code; a referral code of its own is
    drawn for each. *)
Definition carol_signup : LoginRequest :=
  mkLoginRequest (Some "key-alpha") (Some "carol@example.com")
    (Some "looking-glass") (Some "REF-ALICE") None None.
Definition dave_signup : LoginRequest :=
  mkLoginRequest (Some "key-alpha") (Some "dave@example.com")
    (Some "jabberwock") (Some "REF-ALICE") None None.
Definition dave_oracle : Oracle :=
  mkOracle "REF-DAVE" "tok" (verify_oauth2_token Sample.oracle).
Definition after_carol : DB :=
  (distributed_login Sample.env Sample.oracle carol_signup Sample.db).1.
End Runs.

(** ** Properties of the code beyond the claims *)

(** A key that is missing, empty, unknown, or held only by deactivated
    sites. *)
Definition key_refused (key : option string) (d : DB) : Prop :=
  truthy key = false
  \/ forall s, s ∈ sites d ->
       BookSite.api_key s = get_default key EmptyString ->
       BookSite.is_active s = false.

Module Network.
(** The sample network with a third, deactivated site. *)
Definition gamma : BookSite.t :=
  BookSite.mk 3 "Gamma Books" "gamma.example" "key-gamma" false.

Definition db : DB :=
  mkDB (users Sample.db) (profiles Sample.db)
       [Sample.alpha; Sample.beta; gamma]
       (activities Sample.db) (transactions Sample.db) (books Sample.db)
       (user_books Sample.db) (cache Sample.db).
End Network.

Module Shelf.
(** The sample network with a second reader, Bob, who signed in with
    Google, holds no credits and has the novel on his shelf too. *)
Definition bob : User.t :=
  User.mk 2 "bob@example.com" "bob@example.com" None "Bob" EmptyString.
Definition bob_profile : UserProfile.t :=
  UserProfile.mk 2 2 "g-bob" "REF-BOB" None 0 0 0.
Definition bob_novel : UserBook.t := UserBook.mk 2 2 1 0.

Definition db : DB :=
  mkDB [Sample.alice; bob] [Sample.alice_profile; bob_profile]
       (sites Sample.db) [] [] [Sample.novel]
       [Sample.alice_novel; bob_novel] ∅.

(** Alice signs in with Google for the first time: a subject id no
    account has yet, and her registered email. *)
Definition alice_claims : IdInfo :=
  mkIdInfo (Some "g-alice-2") (Some "alice@example.com") (Some "Alice")
           None.
Definition alice_oracle : Oracle :=
  mkOracle "REF-NEW" "tok" (fun _ => Ok alice_claims).

(** Tokens for a cross-promotion request. *)
Definition promo_tokens (i : nat) : string :=
  match i with
  | O => "first"
  | S O => "second"
  | _ => "later"
  end.
End Shelf.

(** ** [get_cross_promo_sites]

    The view draws one token per listed site; [tokens i] is the value the
    [i]-th call of [secrets.token_urlsafe] returns during the request. *)

Record PromoRequest := mkPromoRequest {
  pr_user : Z;                     (* request.user *)
  pr_current_site : option string  (* request.GET.get('current_site') *)
}.

Record PromoLink := mkPromoLink {
  pl_name : string;
  pl_domain : string;
  pl_auth_url : string
}.

Definition promo_code (tokens : nat -> string) (i : nat) : string :=
  String.append "AC_" (tokens i).

Definition promo_link (site : BookSite.t) (auth_code : string) : PromoLink :=
  mkPromoLink (BookSite.name site) (BookSite.domain site)
    (String.append "https://"
       (String.append (BookSite.domain site)
          (String.append "/auth/login?code=" auth_code))).

(** The body of the [for site in sites] loop, from the [i]-th site on. *)
Fixpoint issue_promo_links (env : Env) (tokens : nat -> string) (uid : Z)
    (i : nat) (targets : list BookSite.t) : M (list PromoLink) :=
  match targets with
  | [] => ret []
  | site :: rest =>
      let auth_code := promo_code tokens i in
      let cache_data := mkAuthData uid (BookSite.id site) (now env + 300) in
      cache_set env (cache_key_of auth_code) cache_data 300 ;;
      let* site_data := issue_promo_links env tokens uid (S i) rest in
      ret (promo_link site auth_code :: site_data)
  end.

(** The sites the view lists: the active ones, without the current one
    when the request names it. *)
Definition promo_targets (req : PromoRequest) (d : DB) : list BookSite.t :=
  let active := List.filter BookSite.is_active (sites d) in
  if truthy (pr_current_site req) then
    List.filter
      (fun s => negb (bool_decide
                        (BookSite.domain s
                         = get_default (pr_current_site req) EmptyString)))
      active
  else active.

Definition get_cross_promo_sites (env : Env) (tokens : nat -> string)
    (req : PromoRequest) : M (list PromoLink) :=
  let* targets := read (promo_targets req) in
  issue_promo_links env tokens (pr_user req) 0 targets.

(** ** [books/admin.py] *)

Definition with_sites (v : list BookSite.t) (d : DB) : DB :=
  mkDB (users d) (profiles d) v (activities d) (transactions d)
       (books d) (user_books d) (cache d).

Definition BookSite_get_by_pk (pk : Z) : M BookSite.t :=
  fun d => (d, objects_get MBookSite
     (fun s => bool_decide (BookSite.id s = pk)) (sites d)).

(** [site.save()] of a stored site: [domain] and [api_key] are unique, so
    the UPDATE raises when another row holds either value. *)
Definition BookSite_save (s : BookSite.t) : M unit :=
  fun d =>
    if existsb (fun y => negb (bool_decide (BookSite.id y = BookSite.id s))
                         && (bool_decide (BookSite.api_key y
                                          = BookSite.api_key s)
                             || bool_decide (BookSite.domain y
                                             = BookSite.domain s)))
               (sites d)
    then (d, Raise IntegrityError)
    else (with_sites (save_row BookSite.id s (sites d)) d, Ok tt).

Inductive JsonBody :=
| NewKey (new_key : string)      (* {'success': True, 'new_key': ...} *)
| JsonError (error : string).    (* {'error': ...} *)

Record JsonResponse := mkJson {
  js_status : Z;
  js_body : JsonBody
}.

(** [BookSiteAdmin.regenerate_api_key]; the key drawn is
    [secrets.token_urlsafe(32)], the oracle's token. *)
Definition regenerate_api_key (rnd : Oracle) (method : string) (site_id : Z)
    : M JsonResponse :=
  if bool_decide (method = "POST") then
    try_except
      (let* site := BookSite_get_by_pk site_id in
       let site :=
         BookSite.mk (BookSite.id site) (BookSite.name site)
           (BookSite.domain site)
           (String.append "bk_" (token_urlsafe rnd))
           (BookSite.is_active site) in
       BookSite_save site ;;
       ret (mkJson HTTP_200_OK (NewKey (BookSite.api_key site))))
      (only (DoesNotExist MBookSite))
      (ret (mkJson HTTP_404_NOT_FOUND (JsonError "Site not found")))
  else ret (mkJson HTTP_400_BAD_REQUEST (JsonError "Invalid request")).

(** [BookSiteAdmin.total_users]:
    [UserSiteActivity.objects.filter(site=obj).count()]. *)
Definition total_users (obj : BookSite.t) : M Z :=
  read (fun d =>
    Z.of_nat (length (List.filter
      (fun a => bool_decide (UserSiteActivity.site a = BookSite.id obj))
      (activities d)))).

(** Python's [s[:n]] and [s[-n:]] (for [n > 0]) on strings. *)
Definition py_prefix (n : nat) (s : string) : string :=
  String.substring 0 n s.
Definition py_suffix (n : nat) (s : string) : string :=
  String.substring (String.length s - n) n s.

(** [AuthCodeAdmin.code_display] *)
Definition code_display (code : string) : string :=
  if truthy (Some code) then
    String.append (py_prefix 5 code)
      (String.append "..." (py_suffix 5 code))
  else "No code".

(** What the database guarantees of [BookSite]: primary keys, API keys and
    domains are unique. *)
Definition sites_wf (rows : list BookSite.t) : Prop :=
  NoDup (BookSite.id <$> rows)
  /\ NoDup (BookSite.api_key <$> rows)
  /\ NoDup (BookSite.domain <$> rows).

(** * Theorems *)

(** ** Facts about the ORM calls *)

Section Rows.
Context {A : Type} (key : A -> Z).

Lemma next_id_above (ids : list Z) : Forall (fun i => i < next_id ids) ids.
Proof.
  unfold next_id. induction ids as [|i ids IH]; constructor; simpl.
  - lia.
  - eapply Forall_impl; [exact IH|]. simpl. intros; lia.
Qed.

Lemma next_id_fresh (rows : list A) :
  next_id (key <$> rows) ∉ key <$> rows.
Proof.
  intros Hin. pose proof (next_id_above (key <$> rows)) as H.
  rewrite Forall_forall in H. specialize (H _ Hin). lia.
Qed.

Lemma existsb_key_false (k : Z) (rows : list A) :
  k ∉ key <$> rows ->
  existsb (fun y => bool_decide (key y = k)) rows = false.
Proof.
  induction rows as [|y rows IH]; simpl; [done|].
  rewrite not_elem_of_cons. intros [Hne Hnin].
  rewrite bool_decide_eq_false_2 by congruence. simpl. auto.
Qed.

Lemma existsb_key_true (k : Z) (rows : list A) :
  k ∈ key <$> rows ->
  existsb (fun y => bool_decide (key y = k)) rows = true.
Proof.
  induction rows as [|y rows IH]; simpl.
  - intros H. inversion H.
  - rewrite elem_of_cons. intros [->|Hin].
    + rewrite bool_decide_eq_true_2 by done. done.
    + rewrite IH by done. apply orb_true_r.
Qed.

Lemma existsb_key_elem (k : Z) (rows : list A) :
  existsb (fun y => bool_decide (key y = k)) rows = true ->
  k ∈ key <$> rows.
Proof.
  destruct (decide (k ∈ key <$> rows)) as [|Hn]; [done|].
  rewrite (existsb_key_false _ _ Hn). done.
Qed.

Lemma filter_key_absent (k : Z) (rows : list A) :
  k ∉ key <$> rows ->
  List.filter (fun y => bool_decide (key y = k)) rows = [].
Proof.
  induction rows as [|y rows IH]; simpl; [done|].
  rewrite not_elem_of_cons. intros [Hne Hnin].
  rewrite bool_decide_eq_false_2 by congruence. auto.
Qed.

(** Saving keeps the primary keys, or adds the new one at the end. *)
Lemma save_row_keys (x : A) (rows : list A) :
  key <$> save_row key x rows
  = if existsb (fun y => bool_decide (key y = key x)) rows
    then key <$> rows else (key <$> rows) ++ [key x].
Proof.
  unfold save_row. destruct (existsb _ rows).
  - rewrite <- list_fmap_compose. apply list_fmap_ext.
    intros i y _. simpl. case_bool_decide; congruence.
  - by rewrite fmap_app.
Qed.

Lemma save_row_NoDup (x : A) (rows : list A) :
  NoDup (key <$> rows) -> NoDup (key <$> save_row key x rows).
Proof.
  intros Hnd. rewrite save_row_keys.
  destruct (existsb _ rows) eqn:E; [done|].
  apply NoDup_app. split_and!; [done| |apply NoDup_singleton].
  intros k Hk Hk'. apply list_elem_of_singleton in Hk'. subst k.
  apply existsb_key_true in Hk. congruence.
Qed.

Lemma filter_key_replace (x : A) (rows : list A) :
  NoDup (key <$> rows) -> key x ∈ key <$> rows ->
  List.filter (fun y => bool_decide (key y = key x))
    ((fun y => if bool_decide (key y = key x) then x else y) <$> rows)
  = [x].
Proof.
  induction rows as [|y rows IH]; simpl.
  - intros _ H. inversion H.
  - rewrite NoDup_cons. intros [Hnin Hnd] Hin.
    destruct (decide (key y = key x)) as [Hy|Hy].
    + rewrite (bool_decide_eq_true_2 _ Hy). simpl.
      rewrite bool_decide_eq_true_2 by done. f_equal.
      rewrite Hy in Hnin.
      transitivity (List.filter (fun y => bool_decide (key y = key x)) rows).
      * f_equal. rewrite <- (list_fmap_id rows) at 2.
        apply list_fmap_ext. intros i z Hz. simpl.
        case_bool_decide as Hz'; [|done].
        exfalso. apply Hnin. rewrite <- Hz'.
        apply list_elem_of_fmap_2. by eapply list_elem_of_lookup_2.
      * by apply filter_key_absent.
    + rewrite (bool_decide_eq_false_2 _ Hy). simpl.
      rewrite (bool_decide_eq_false_2 _ Hy). apply IH; [done|].
      apply elem_of_cons in Hin as [?|?]; [congruence|done].
Qed.

(** Reading a row back by its primary key after saving it. *)
Lemma get_saved (m : Model) (x : A) (rows : list A) :
  NoDup (key <$> rows) ->
  objects_get m (fun y => bool_decide (key y = key x)) (save_row key x rows)
  = Ok x.
Proof.
  intros Hnd. unfold objects_get, save_row.
  destruct (existsb _ rows) eqn:E.
  - rewrite filter_key_replace; [done|done|].
    by apply existsb_key_elem.
  - rewrite List.filter_app. simpl. rewrite bool_decide_eq_true_2 by done.
    rewrite filter_key_absent; [done|].
    intros Hin. apply existsb_key_true in Hin. congruence.
Qed.

(** Saving one row leaves the rows of other keys as they are. *)
Lemma get_other_saved (m : Model) (k : Z) (x : A) (rows : list A) :
  k <> key x ->
  objects_get m (fun y => bool_decide (key y = k)) (save_row key x rows)
  = objects_get m (fun y => bool_decide (key y = k)) rows.
Proof.
  intros Hne. unfold objects_get, save_row.
  assert (List.filter (fun y => bool_decide (key y = k))
            (if existsb (fun y => bool_decide (key y = key x)) rows
             then (fun y => if bool_decide (key y = key x) then x else y)
                    <$> rows
             else rows ++ [x])
          = List.filter (fun y => bool_decide (key y = k)) rows) as ->;
    [|done].
  destruct (existsb _ rows).
  - induction rows as [|y rows IH]; [done|].
    rewrite fmap_cons. cbn [List.filter]. rewrite IH.
    destruct (decide (key y = key x)) as [Hy|Hy].
    + rewrite (bool_decide_eq_true_2 _ Hy).
      rewrite !bool_decide_eq_false_2 by congruence. done.
    + rewrite (bool_decide_eq_false_2 _ Hy). done.
  - rewrite List.filter_app. simpl.
    rewrite bool_decide_eq_false_2 by congruence. apply app_nil_r.
Qed.

(** A row that [objects_get] returns is in the table and passes the
    filter. *)
Lemma objects_get_Ok (m : Model) (P : A -> bool) (rows : list A) (x : A) :
  objects_get m P rows = Ok x -> x ∈ rows /\ P x = true.
Proof.
  unfold objects_get. destruct (List.filter P rows) as [|y [|]] eqn:E;
    intros [= <-].
  assert (In y (List.filter P rows)) as Hin by (rewrite E; left; done).
  apply filter_In in Hin as [Hin HP]. split; [|done].
  by apply list_elem_of_In.
Qed.
End Rows.

(** ** The credit ledger: [update_credits] *)

(** What a successful credit update did: the caller's site and the account
    were found, a spend was covered, the account row was saved with the
    counters moved by [|amount|], and one transaction row was appended. *)
Lemma update_credits_success (req : CreditsRequest) (d d' : DB)
    (resp : Response) :
  update_credits req d = (d', Ok resp) ->
  status resp = HTTP_200_OK ->
  exists site profile profile' t,
    BookSite_get_by_api_key (get_default (cr_api_key req) EmptyString) d = (d, Ok site)
    /\ UserProfile_get_by_user (cr_user req) d = (d, Ok profile)
    /\ profile' =
         (let a := Z.abs (get_default (cr_amount req) 0) in
          if bool_decide (get_default (cr_type req) "earned" = "spent")
          then UserProfile.set_total_credits_spent
                 (UserProfile.total_credits_spent profile + a)
                 (UserProfile.set_credits (UserProfile.credits profile - a)
                    profile)
          else UserProfile.set_total_credits_earned
                 (UserProfile.total_credits_earned profile + a)
                 (UserProfile.set_credits (UserProfile.credits profile + a)
                    profile))
    /\ (get_default (cr_type req) "earned" = "spent" ->
        Z.abs (get_default (cr_amount req) 0) <= UserProfile.credits profile)
    /\ t = CreditTransaction.mk
             (next_id (CreditTransaction.id <$> transactions d))
             (UserProfile.id profile) (Some (BookSite.id site))
             (get_default (cr_type req) "earned")
             (get_default (cr_amount req) 0)
             (get_default (cr_description req) EmptyString)
    /\ d' = with_transactions (transactions d ++ [t])
              (with_profiles
                 (save_row UserProfile.id profile' (profiles d)) d)
    /\ body resp = CreditsBody (UserProfile.credits profile')
                     (CreditTransaction.id
                        (default t (objects_last CreditTransaction.id
                                      (transactions d ++ [t])))).
Proof.
  unfold update_credits, lookup_site, BookSite_get_by_api_key,
    UserProfile_get_by_user, UserProfile_save, CreditTransaction_create,
    InsufficientBalance, error_response, modify, read, try_except, raise,
    ret, bind.
  intros H Hst.
  repeat (case_match; simplify_eq/=).
  all: eexists _, _, _, _; split_and!; try reflexivity; try done.
  all: try (by f_equal).
  all: try (intros _; by apply Z.ltb_ge).
  all: try (intros Hs;
            match goal with
            | Hb : bool_decide _ = false |- _ =>
                by apply bool_decide_eq_false_1 in Hb
            end).
  all: simpl; match goal with Hl : objects_last _ _ = _ |- _ =>
                simpl in Hl; by rewrite Hl end.
Qed.

Lemma objects_last_snoc {A} (key : A -> Z) (rows : list A) (x : A) :
  exists y, objects_last key (rows ++ [x]) = Some y.
Proof.
  unfold objects_last. rewrite foldl_app. simpl.
  destruct (foldl _ None rows) as [y|]; [|by eexists].
  destruct (key y <? key x); by eexists.
Qed.

(** The run of a credit update that passes the key check, finds the
    account and, for a spend, finds the balance sufficient. *)
Lemma update_credits_run (req : CreditsRequest) (d : DB)
    (site : BookSite.t) (profile : UserProfile.t) :
  truthy (cr_api_key req) = true ->
  BookSite_get_by_api_key (get_default (cr_api_key req) EmptyString) d = (d, Ok site) ->
  UserProfile_get_by_user (cr_user req) d = (d, Ok profile) ->
  (get_default (cr_type req) "earned" = "spent" ->
   Z.abs (get_default (cr_amount req) 0) <= UserProfile.credits profile) ->
  fits (get_default (cr_amount req) 0) = true ->
  storable
    (let a := Z.abs (get_default (cr_amount req) 0) in
     if bool_decide (get_default (cr_type req) "earned" = "spent")
     then UserProfile.set_total_credits_spent
            (UserProfile.total_credits_spent profile + a)
            (UserProfile.set_credits (UserProfile.credits profile - a)
               profile)
     else UserProfile.set_total_credits_earned
            (UserProfile.total_credits_earned profile + a)
            (UserProfile.set_credits (UserProfile.credits profile + a)
               profile)) = true ->
  exists resp, status resp = HTTP_200_OK /\
    update_credits req d =
      (with_transactions
         (transactions d ++
          [CreditTransaction.mk
             (next_id (CreditTransaction.id <$> transactions d))
             (UserProfile.id profile) (Some (BookSite.id site))
             (get_default (cr_type req) "earned")
             (get_default (cr_amount req) 0)
             (get_default (cr_description req) EmptyString)])
         (with_profiles
            (save_row UserProfile.id
               (let a := Z.abs (get_default (cr_amount req) 0) in
                if bool_decide (get_default (cr_type req) "earned" = "spent")
                then UserProfile.set_total_credits_spent
                       (UserProfile.total_credits_spent profile + a)
                       (UserProfile.set_credits
                          (UserProfile.credits profile - a) profile)
                else UserProfile.set_total_credits_earned
                       (UserProfile.total_credits_earned profile + a)
                       (UserProfile.set_credits
                          (UserProfile.credits profile + a) profile))
               (profiles d)) d),
       Ok resp).
Proof.
  intros Hkey Hsite Hprofile Hcover Hamount Hrow.
  unfold update_credits. rewrite Hkey. cbn [negb].
  unfold lookup_site, try_except, bind. rewrite Hsite. cbn beta iota.
  unfold ret at 1. cbn beta iota. rewrite Hprofile. cbn beta iota zeta.
  cbn zeta in Hrow.
  destruct (bool_decide (get_default (cr_type req) "earned" = "spent"))
    eqn:Ty.
  - apply bool_decide_eq_true_1 in Ty. specialize (Hcover Ty).
    apply Z.ltb_ge in Hcover. rewrite Hcover.
    unfold UserProfile_save, CreditTransaction_create, read, ret, raise.
    rewrite Hrow. cbn [negb]. cbn [transactions with_profiles].
    rewrite Hamount. cbn [negb].
    cbn [transactions with_transactions with_profiles].
    edestruct (objects_last_snoc CreditTransaction.id) as [y ->].
    eexists. split; [|reflexivity]. done.
  - unfold UserProfile_save, CreditTransaction_create, read, ret, raise.
    rewrite Hrow. cbn [negb]. cbn [transactions with_profiles].
    rewrite Hamount. cbn [negb].
    cbn [transactions with_transactions with_profiles].
    edestruct (objects_last_snoc CreditTransaction.id) as [y ->].
    eexists. split; [|reflexivity]. done.
Qed.

(** C5: a spend whose magnitude exceeds the balance is refused with
    [InsufficientBalance] and the whole database, hence the balance, the
    lifetime-spent counter and the transaction log, stays as it was. *)
Theorem update_credits_insufficient_balance (req : CreditsRequest) (d : DB)
    (site : BookSite.t) (profile : UserProfile.t) :
  truthy (cr_api_key req) = true ->
  BookSite_get_by_api_key (get_default (cr_api_key req) EmptyString) d = (d, Ok site) ->
  UserProfile_get_by_user (cr_user req) d = (d, Ok profile) ->
  cr_type req = Some "spent" ->
  UserProfile.credits profile < Z.abs (get_default (cr_amount req) 0) ->
  update_credits req d = (d, Ok InsufficientBalance).
Proof.
  intros Hkey Hsite Hprofile Hty Hlt.
  unfold update_credits. rewrite Hkey. cbn [negb].
  unfold lookup_site, try_except, bind. rewrite Hsite. cbn beta iota.
  unfold ret at 1. cbn beta iota. rewrite Hprofile, Hty. simpl.
  apply Z.ltb_lt in Hlt. rewrite Hlt. reflexivity.
Qed.

Lemma update_credits_insufficient_balance_witness :
  update_credits
    (mkCreditsRequest (Some "key-alpha") 1 (Some 9) (Some "spent") None)
    Sample.db
  = (Sample.db, Ok InsufficientBalance).
Proof.
  apply (update_credits_insufficient_balance _ _
           Sample.alpha Sample.alice_profile);
    [reflexivity | reflexivity | reflexivity | reflexivity | simpl; lia].
Defined.

(** The row a covered update saves fits the columns when the stored row
    does and the raised values do. *)
Lemma updated_row_storable (profile : UserProfile.t) (kind : string)
    (amount : Z) :
  storable profile = true ->
  (kind = "spent" -> Z.abs amount <= UserProfile.credits profile) ->
  (if bool_decide (kind = "spent")
   then fits (UserProfile.total_credits_spent profile + Z.abs amount) = true
   else fits (UserProfile.credits profile + Z.abs amount) = true
        /\ fits (UserProfile.total_credits_earned profile + Z.abs amount)
           = true) ->
  storable
    (let a := Z.abs amount in
     if bool_decide (kind = "spent")
     then UserProfile.set_total_credits_spent
            (UserProfile.total_credits_spent profile + a)
            (UserProfile.set_credits (UserProfile.credits profile - a)
               profile)
     else UserProfile.set_total_credits_earned
            (UserProfile.total_credits_earned profile + a)
            (UserProfile.set_credits (UserProfile.credits profile + a)
               profile)) = true.
Proof.
  intros Hrow Hcover Hnew. cbn zeta.
  unfold storable in Hrow.
  apply andb_true_iff in Hrow as [Hrow Hs].
  apply andb_true_iff in Hrow as [Hc He].
  destruct (bool_decide (kind = "spent")) eqn:Ty; unfold storable; simpl.
  - apply bool_decide_eq_true_1 in Ty. specialize (Hcover Ty).
    rewrite He, Hnew, andb_true_r, andb_true_r.
    unfold fits, INTEGER_MIN, INTEGER_MAX in *.
    apply andb_true_iff in Hc as [Hlo Hhi].
    apply Z.leb_le in Hlo, Hhi.
    apply andb_true_iff. split; apply Z.leb_le; lia.
  - destruct Hnew as [-> ->]. by rewrite Hs.
Qed.

(** C10 (amended): a credit update whose amount and raised values fit the
    integer columns moves the balance and the lifetime counter by
    [|amount|] (down, with lifetime-spent up, for kind spent; up, with
    lifetime-earned up, otherwise) and appends one transaction row that
    stores the amount as supplied; so for a negative amount of an earning
    kind the logged amount is negative while the balance goes up. *)
Theorem update_credits_abs_balance_raw_log (req : CreditsRequest) (d : DB)
    (site : BookSite.t) (profile : UserProfile.t) :
  let amount := get_default (cr_amount req) 0 in
  let kind := get_default (cr_type req) "earned" in
  truthy (cr_api_key req) = true ->
  BookSite_get_by_api_key (get_default (cr_api_key req) EmptyString) d = (d, Ok site) ->
  UserProfile_get_by_user (cr_user req) d = (d, Ok profile) ->
  NoDup (UserProfile.id <$> profiles d) ->
  (kind = "spent" -> Z.abs amount <= UserProfile.credits profile) ->
  fits amount = true ->
  storable profile = true ->
  (if bool_decide (kind = "spent")
   then fits (UserProfile.total_credits_spent profile + Z.abs amount) = true
   else fits (UserProfile.credits profile + Z.abs amount) = true
        /\ fits (UserProfile.total_credits_earned profile + Z.abs amount)
           = true) ->
  exists d' resp profile' t,
    update_credits req d = (d', Ok resp)
    /\ status resp = HTTP_200_OK
    /\ UserProfile_get_by_id (UserProfile.id profile) d' = (d', Ok profile')
    /\ (if bool_decide (kind = "spent")
        then UserProfile.credits profile'
               = UserProfile.credits profile - Z.abs amount
             /\ UserProfile.total_credits_spent profile'
               = UserProfile.total_credits_spent profile + Z.abs amount
             /\ UserProfile.total_credits_earned profile'
               = UserProfile.total_credits_earned profile
        else UserProfile.credits profile'
               = UserProfile.credits profile + Z.abs amount
             /\ UserProfile.total_credits_earned profile'
               = UserProfile.total_credits_earned profile + Z.abs amount
             /\ UserProfile.total_credits_spent profile'
               = UserProfile.total_credits_spent profile)
    /\ transactions d' = transactions d ++ [t]
    /\ CreditTransaction.user t = UserProfile.id profile
    /\ CreditTransaction.transaction_type t = kind
    /\ CreditTransaction.amount t = amount
    /\ (amount < 0 -> kind <> "spent" ->
        CreditTransaction.amount t < 0
        /\ 0 < UserProfile.credits profile' - UserProfile.credits profile).
Proof.
  intros amount kind Hkey Hsite Hprofile Hnd Hcover Hamount Hstored Hnew.
  destruct (update_credits_run req d site profile Hkey Hsite Hprofile Hcover
              Hamount (updated_row_storable _ _ _ Hstored Hcover Hnew))
    as (resp & Hst & Hrun).
  eexists _, resp, _, _. split; [exact Hrun|]. split; [exact Hst|].
  split.
  { unfold UserProfile_get_by_id. cbn [profiles with_transactions with_profiles].
    f_equal.
    match goal with |- objects_get _ _ (save_row _ ?p _) = _ =>
      replace (UserProfile.id profile) with (UserProfile.id p)
        by (simpl; by destruct (bool_decide _))
    end.
    by apply get_saved. }
  fold amount kind. cbn zeta.
  split.
  { destruct (bool_decide (kind = "spent")); simpl; done. }
  split; [reflexivity|]. split; [reflexivity|]. split; [reflexivity|].
  split; [reflexivity|].
  intros Hneg Hk. simpl. split; [done|].
  rewrite bool_decide_eq_false_2 by done. simpl. lia.
Qed.

Lemma update_credits_abs_balance_raw_log_witness :
  exists d' resp profile' t,
    update_credits
      (mkCreditsRequest (Some "key-alpha") 1 (Some (-3)) (Some "earned") None)
      Sample.db = (d', Ok resp)
    /\ UserProfile_get_by_id 1 d' = (d', Ok profile')
    /\ UserProfile.credits profile' = 8
    /\ transactions d' = [t]
    /\ CreditTransaction.amount t = -3.
Proof.
  destruct (update_credits_abs_balance_raw_log
              (mkCreditsRequest (Some "key-alpha") 1 (Some (-3))
                 (Some "earned") None)
              Sample.db Sample.alpha Sample.alice_profile)
    as (d' & resp & profile' & t & Hrun & _ & Hget & Hbal & Hlog & _ & _
        & Hamt & _).
  - reflexivity.
  - reflexivity.
  - reflexivity.
  - simpl. apply NoDup_singleton.
  - simpl. discriminate.
  - reflexivity.
  - reflexivity.
  - split; reflexivity.
  - exists d', resp, profile', t. simpl in Hbal.
    destruct Hbal as (Hc & _ & _). split_and!; done.
Defined.

(** An amount beyond the column range: the save raises, the request ends
    with the exception, and neither the balance nor the log has moved. *)
Lemma update_credits_out_of_range_counterexample :
  let amount := 9223372036854775808 in
  let req := mkCreditsRequest (Some "key-alpha") 1 (Some amount)
               (Some "earned") None in
  update_credits req Sample.db = (Sample.db, Raise OverflowError)
  /\ UserProfile_get_by_id 1 Sample.db = (Sample.db, Ok Sample.alice_profile)
  /\ UserProfile.credits Sample.alice_profile
     <> UserProfile.credits Sample.alice_profile + Z.abs amount
  /\ transactions Sample.db = [].
Proof.
  intros amount req. split; [vm_compute; reflexivity|].
  split; [vm_compute; reflexivity|]. split; [|reflexivity].
  vm_compute. discriminate.
Qed.

Lemma update_credits_logs_signed_amount_counterexample :
  exists d' resp t,
    update_credits
      (mkCreditsRequest (Some "key-alpha") 1 (Some 3) (Some "spent") None)
      Sample.db = (d', Ok resp)
    /\ status resp = HTTP_200_OK
    /\ transactions d' = transactions Sample.db ++ [t]
    /\ CreditTransaction.transaction_type t = "spent"
    /\ CreditTransaction.amount t = 3
    /\ spec_resolved_signed_amount "spent" 3 = -3
    /\ CreditTransaction.amount t <> spec_resolved_signed_amount "spent" 3.
Proof.
  eexists _, _, _. split; [vm_compute; reflexivity|].
  split_and!; try reflexivity. vm_compute. discriminate.
Qed.

(** C4 (amended): every successful credit update appends exactly one
    transaction row, for the kind supplied, and the amount it records is the
    amount the caller supplied, unchanged: no sign is derived from the
    kind. *)
Theorem update_credits_appends_supplied_amount (req : CreditsRequest)
    (d d' : DB) (resp : Response) :
  update_credits req d = (d', Ok resp) ->
  status resp = HTTP_200_OK ->
  exists t,
    transactions d' = transactions d ++ [t]
    /\ CreditTransaction.transaction_type t
       = get_default (cr_type req) "earned"
    /\ CreditTransaction.amount t = get_default (cr_amount req) 0.
Proof.
  intros Hrun Hst.
  destruct (update_credits_success req d d' resp Hrun Hst)
    as (site & profile & profile' & t & _ & _ & _ & _ & -> & -> & _).
  eexists. split_and!; reflexivity.
Qed.

Lemma update_credits_appends_supplied_amount_witness :
  exists t,
    transactions
      (update_credits
         (mkCreditsRequest (Some "key-alpha") 1 (Some 3) (Some "spent") None)
         Sample.db).1 = [t]
    /\ CreditTransaction.transaction_type t = "spent"
    /\ CreditTransaction.amount t = 3.
Proof.
  exact (update_credits_appends_supplied_amount
           (mkCreditsRequest (Some "key-alpha") 1 (Some 3) (Some "spent") None)
           Sample.db _ _ eq_refl eq_refl).
Defined.

Lemma Forall_save_row {A} (key : A -> Z) (P : A -> Prop) (x : A)
    (rows : list A) :
  Forall P rows -> P x -> Forall P (save_row key x rows).
Proof.
  intros Hrows Hx. unfold save_row. destruct (existsb _ rows).
  - apply Forall_fmap. eapply Forall_impl; [exact Hrows|].
    intros y Hy. simpl. by destruct (bool_decide _).
  - apply Forall_app. split; [done|]. by constructor.
Qed.

(** X15: the credit-update path keeps the ledger invariant of every account,
    whatever its outcome. *)
Lemma update_credits_keeps_ledger_invariant (req : CreditsRequest)
    (d d' : DB) (r : Result Response) :
  update_credits req d = (d', r) ->
  Forall ledger_invariant (profiles d) ->
  Forall ledger_invariant (profiles d').
Proof.
  unfold update_credits, lookup_site, BookSite_get_by_api_key,
    UserProfile_get_by_user, UserProfile_save, CreditTransaction_create,
    InsufficientBalance, error_response, modify, read, try_except, raise,
    ret, bind.
  intros H Hinv.
  repeat (case_match; simplify_eq/=); try done.
  all: apply Forall_save_row; [done|].
  all: match goal with
       | Hg : objects_get _ _ (profiles _) = Ok ?p |- _ =>
           apply objects_get_Ok in Hg as [Hin _];
           rewrite Forall_forall in Hinv; specialize (Hinv _ Hin);
           unfold ledger_invariant in *; simpl; lia
       end.
Qed.

(** C1, at the failing input: Alice holds 5 credits (earned 5, spent 0) and
    unlocks a chapter that costs 1.  The view answers 200 and saves her row
    with balance 4 while lifetime-spent stays 0, so the balance no longer
    equals earned minus spent. *)
Theorem unlock_chapter_breaks_ledger_invariant :
  Forall ledger_invariant (profiles Sample.db)
  /\ exists d' resp p,
       unlock_chapter (mkUnlockRequest 1 1) Sample.db = (d', Ok resp)
       /\ status resp = HTTP_200_OK
       /\ UserProfile_get_by_id 1 d' = (d', Ok p)
       /\ UserProfile.credits p = 4
       /\ UserProfile.total_credits_earned p = 5
       /\ UserProfile.total_credits_spent p = 0
       /\ ~ ledger_invariant p.
Proof.
  split.
  - repeat constructor.
  - eexists _, _, _. split; [vm_compute; reflexivity|].
    split; [reflexivity|]. split; [vm_compute; reflexivity|].
    split_and!; try reflexivity. unfold ledger_invariant. simpl. lia.
Qed.

(** C3, at the failing input: a federated login of an unknown subject and
    email without referral code.  The view answers 200 with a new account
    whose balance is 5, but its lifetime-earned counter is still 0 and the
    transaction table is still empty: no welcome_bonus row is written. *)
Theorem google_sso_login_skips_welcome_entry :
  exists d' resp p,
    google_sso_login Sample.env Sample.oracle
      (mkGoogleRequest (Some "key-alpha") (Some "bob-token") None) Sample.db
    = (d', Ok resp)
    /\ status resp = HTTP_200_OK
    /\ UserProfile_get_by_google_id "g-bob" d' = (d', Ok p)
    /\ UserProfile.credits p = 5
    /\ UserProfile.total_credits_earned p = 0
    /\ transactions d' = []
    /\ ~ ledger_invariant p.
Proof.
  eexists _, _, _. split; [vm_compute; reflexivity|].
  split; [reflexivity|]. split; [vm_compute; reflexivity|].
  split_and!; try reflexivity. unfold ledger_invariant. simpl. lia.
Qed.

(** ** The handoff: [exchange_auth_code] *)

Lemma exchange_auth_code_mismatch_counterexample :
  let req := mkExchangeRequest (Some "AC_tok") (Some "key-alpha") in
  exists auth_data deadline,
    cache Sample.db_with_code !! cache_key_of "AC_tok"
      = Some (auth_data, deadline)
    /\ ad_target_site_id auth_data = BookSite.id Sample.beta
    /\ BookSite.id Sample.alpha <> BookSite.id Sample.beta
    /\ exchange_auth_code Sample.env req Sample.db_with_code
       = (Sample.db_with_code, Ok SiteMismatch)
    /\ (exchange_auth_code Sample.env req
          (exchange_auth_code Sample.env req Sample.db_with_code).1).2
       = Ok SiteMismatch
    /\ Ok SiteMismatch <> Ok InvalidOrExpiredCode.
Proof.
  eexists _, _. split; [vm_compute; reflexivity|].
  split; [reflexivity|]. split; [discriminate|].
  split; [vm_compute; reflexivity|]. split; [vm_compute; reflexivity|].
  discriminate.
Qed.

(** C2 (amended): redeeming a still-stored code through a site other than
    its destination fails with [SiteMismatch] and does not consume the code:
    the check comes before the delete, the database and the cache stay as
    they were, so the same redemption tried again fails with
    [SiteMismatch] again. *)
Theorem exchange_auth_code_site_mismatch (env : Env) (req : ExchangeRequest)
    (d : DB) (site : BookSite.t) (auth_data : AuthData) :
  truthy (ex_api_key req) = true ->
  truthy (ex_code req) = true ->
  BookSite_get_by_api_key (get_default (ex_api_key req) EmptyString) d = (d, Ok site) ->
  cache_get env (cache_key_of (get_default (ex_code req) EmptyString)) d
    = (d, Ok (Some auth_data)) ->
  ad_target_site_id auth_data <> BookSite.id site ->
  exchange_auth_code env req d = (d, Ok SiteMismatch)
  /\ (exchange_auth_code env req ;; exchange_auth_code env req) d
     = (d, Ok SiteMismatch).
Proof.
  intros Hkey Hcode Hsite Hget Hne.
  assert (exchange_auth_code env req d = (d, Ok SiteMismatch)) as Hrun.
  { unfold exchange_auth_code. rewrite Hkey, Hcode. cbn [negb orb].
    unfold lookup_site, try_except, bind. rewrite Hsite. cbn beta iota.
    unfold ret at 1. cbn beta iota zeta. rewrite Hget.
    rewrite bool_decide_eq_false_2 by done. reflexivity. }
  split; [exact Hrun|].
  unfold bind at 1. rewrite Hrun. exact Hrun.
Qed.

Lemma exchange_auth_code_site_mismatch_witness :
  exchange_auth_code Sample.env
    (mkExchangeRequest (Some "AC_tok") (Some "key-alpha"))
    Sample.db_with_code
  = (Sample.db_with_code, Ok SiteMismatch).
Proof.
  refine (proj1 (exchange_auth_code_site_mismatch Sample.env
            (mkExchangeRequest (Some "AC_tok") (Some "key-alpha"))
            Sample.db_with_code Sample.alpha
            (mkAuthData 1 2 1300) _ _ _ _ _)).
  - reflexivity.
  - reflexivity.
  - vm_compute. reflexivity.
  - vm_compute. reflexivity.
  - simpl. lia.
Defined.

(** The two pieces, run one after the other, are the view. *)
Lemma exchange_auth_code_two_pieces (env : Env) (req : ExchangeRequest)
    (d : DB) :
  exchange_auth_code env req d
  = (let* x := exchange_lookup env req in
     match x with
     | inl resp => ret resp
     | inr (site, cache_key, auth_data) =>
         exchange_finish env site cache_key auth_data
     end) d.
Proof.
  unfold exchange_auth_code, exchange_lookup, exchange_finish, bind.
  destruct (negb (truthy (ex_api_key req)) || negb (truthy (ex_code req)));
    [reflexivity|].
  destruct (lookup_site _ d) as [d1 [[site|]|e]]; try reflexivity.
  destruct (cache_get env _ d1) as [d2 [[auth_data|]|e]]; try reflexivity.
  destruct (negb (bool_decide _)); reflexivity.
Qed.

Lemma redemption_alone (env : Env) (req : ExchangeRequest) (d : DB) :
  run_schedule env [First; First] d (Arrived req) (Arrived req)
  = ((exchange_auth_code env req d).1,
     Answered (exchange_auth_code env req d).2, Arrived req).
Proof.
  rewrite exchange_auth_code_two_pieces. unfold bind. simpl.
  destruct (exchange_lookup env req d) as [d1 [[resp|[[site key] ad]]|e]];
    simpl; try reflexivity.
  destruct (exchange_finish env site key ad d1); reflexivity.
Qed.

(** C7, at the failing input: the code "AC_tok" is stored for beta.example
    and two redemptions of it through beta.example are in flight.  When both
    have read the cache before either deletes the key, both are answered
    200 with Alice's account: two successes, no [InvalidOrExpiredCode]. *)
Theorem concurrent_redemptions_both_succeed :
  let req := mkExchangeRequest (Some "AC_tok") (Some "key-beta") in
  exists d' resp1 resp2,
    run_schedule Sample.env [First; Second; First; Second]
      Sample.db_with_code (Arrived req) (Arrived req)
    = (d', Answered (Ok resp1), Answered (Ok resp2))
    /\ status resp1 = HTTP_200_OK
    /\ status resp2 = HTTP_200_OK
    /\ resp2 <> InvalidOrExpiredCode.
Proof.
  eexists _, _, _. split; [vm_compute; reflexivity|].
  split_and!; [reflexivity|reflexivity|discriminate].
Qed.

(** Run one after the other, the second redemption finds the key gone. *)
Lemma sequential_redemptions_one_success :
  let req := mkExchangeRequest (Some "AC_tok") (Some "key-beta") in
  exists d' resp1,
    run_schedule Sample.env [First; First; Second; Second]
      Sample.db_with_code (Arrived req) (Arrived req)
    = (d', Answered (Ok resp1), Answered (Ok InvalidOrExpiredCode))
    /\ status resp1 = HTTP_200_OK.
Proof.
  eexists _, _. split; [vm_compute; reflexivity|]. reflexivity.
Qed.

(** ** Site activity: [track_activity] *)

Lemma key_inj_of_NoDup {A} (key : A -> Z) (rows : list A) (x y : A) :
  NoDup (key <$> rows) -> x ∈ rows -> y ∈ rows -> key x = key y -> x = y.
Proof.
  induction rows as [|z rows IH]; [intros _ H; inversion H|].
  rewrite fmap_cons, NoDup_cons, !elem_of_cons.
  intros [Hnin Hnd] [->|Hx] [->|Hy] Hk; auto.
  - exfalso. apply Hnin. rewrite Hk. by apply list_elem_of_fmap_2.
  - exfalso. apply Hnin. rewrite <- Hk. by apply list_elem_of_fmap_2.
Qed.

Lemma filter_nil_existsb {A} (P : A -> bool) (rows : list A) :
  List.filter P rows = [] -> existsb P rows = false.
Proof.
  induction rows as [|y rows IH]; simpl; [done|].
  destruct (P y); [done|]. auto.
Qed.

Lemma filter_elem_of {A} (P : A -> bool) (rows : list A) (x : A) :
  x ∈ List.filter P rows <-> x ∈ rows /\ P x = true.
Proof. rewrite !list_elem_of_In. apply filter_In. Qed.

Lemma filter_fmap_commute {A} (P : A -> bool) (f : A -> A) (rows : list A) :
  (forall y, y ∈ rows -> P (f y) = P y) ->
  List.filter P (f <$> rows) = f <$> List.filter P rows.
Proof.
  induction rows as [|y rows IH]; [done|]. intros H.
  rewrite fmap_cons. cbn [List.filter].
  rewrite H by apply list_elem_of_here.
  rewrite IH by (intros; apply H; by apply list_elem_of_further).
  by destruct (P y).
Qed.

Lemma fmap_id_on {A} (f : A -> A) (rows : list A) :
  (forall y, y ∈ rows -> f y = y) -> f <$> rows = rows.
Proof.
  intros H. rewrite <- (list_fmap_id rows) at 2.
  apply list_fmap_ext. intros i y Hy. apply H.
  by eapply list_elem_of_lookup_2.
Qed.

Lemma same_pair_spec (uid sid : Z) (a : UserSiteActivity.t) :
  same_pair uid sid a = true
  <-> UserSiteActivity.user a = uid /\ UserSiteActivity.site a = sid.
Proof.
  unfold same_pair. rewrite andb_true_iff, !bool_decide_eq_true. done.
Qed.

(** A first visit: the pair has no row yet. *)
Lemma activity_created (uid sid : Z) (acts : list UserSiteActivity.t) :
  activities_wf acts ->
  visit_rows uid sid acts = [] ->
  let a := UserSiteActivity.mk (next_id (UserSiteActivity.id <$> acts))
             uid sid 1 in
  activities_wf (acts ++ [a]) /\ visit_recorded uid sid acts (acts ++ [a]).
Proof.
  intros [Hnd Hone] Hnone a.
  assert (forall u s, visit_rows u s (acts ++ [a])
                      = visit_rows u s acts
                        ++ (if same_pair u s a then [a] else [])) as Happ.
  { intros u s. unfold visit_rows. rewrite List.filter_app. simpl.
    by destruct (same_pair u s a). }
  assert (same_pair uid sid a = true) as Ha
    by (apply same_pair_spec; done).
  split; [split|split].
  - rewrite fmap_app. apply NoDup_app. split_and!; [done| |apply NoDup_singleton].
    intros k Hk Hk'. apply list_elem_of_singleton in Hk'. subst k.
    by apply next_id_fresh in Hk.
  - intros u s. rewrite Happ, length_app.
    destruct (same_pair u s a) eqn:E; simpl.
    + apply same_pair_spec in E as [<- <-]. simpl. rewrite Hnone. simpl. lia.
    + specialize (Hone u s). lia.
  - rewrite Hnone. exists a. rewrite Happ, Hnone, Ha. done.
  - intros u s Hne. rewrite Happ.
    destruct (same_pair u s a) eqn:E; [|apply app_nil_r].
    apply same_pair_spec in E as [<- <-]. done.
Qed.

(** A later visit: the pair has its one row [a], saved with the counter
    raised. *)
Lemma activity_incremented (uid sid : Z) (acts : list UserSiteActivity.t)
    (a : UserSiteActivity.t) :
  activities_wf acts ->
  visit_rows uid sid acts = [a] ->
  let a' := UserSiteActivity.mk (UserSiteActivity.id a)
              (UserSiteActivity.user a) (UserSiteActivity.site a)
              (UserSiteActivity.total_visits a + 1) in
  let acts' := save_row UserSiteActivity.id a' acts in
  activities_wf acts' /\ visit_recorded uid sid acts acts'.
Proof.
  intros [Hnd Hone] Hrow a' acts'.
  assert (a ∈ acts /\ same_pair uid sid a = true) as [Hin Hpair].
  { apply filter_elem_of. unfold visit_rows in Hrow. rewrite Hrow.
    apply list_elem_of_here. }
  set (f := fun y => if bool_decide (UserSiteActivity.id y
                                     = UserSiteActivity.id a')
                     then a' else y).
  assert (acts' = f <$> acts) as Hacts'.
  { unfold acts', save_row. rewrite existsb_key_true; [done|].
    by apply (list_elem_of_fmap_2 UserSiteActivity.id) in Hin. }
  assert (f a = a') as Hfa.
  { unfold f. simpl. by rewrite bool_decide_eq_true_2. }
  assert (forall y, y ∈ acts -> y <> a -> f y = y) as Hf.
  { intros y Hy Hne. unfold f. simpl.
    rewrite bool_decide_eq_false_2; [done|]. intros E. apply Hne.
    exact (key_inj_of_NoDup _ _ _ _ Hnd Hy Hin E). }
  assert (forall u s y, y ∈ acts -> same_pair u s (f y) = same_pair u s y)
    as Hsame.
  { intros u s y Hy. destruct (decide (UserSiteActivity.id y
                                       = UserSiteActivity.id a)) as [E|E].
    - rewrite (key_inj_of_NoDup _ _ _ _ Hnd Hy Hin E), Hfa. done.
    - rewrite Hf; [done|done|]. intros ->. done. }
  assert (forall u s, visit_rows u s acts' = f <$> visit_rows u s acts)
    as Hrows.
  { intros u s. rewrite Hacts'. unfold visit_rows.
    apply filter_fmap_commute. intros y Hy. by apply Hsame. }
  split; [split|split].
  - unfold acts'. by apply save_row_NoDup.
  - intros u s. rewrite Hrows, length_fmap. apply Hone.
  - rewrite Hrow. exists a'. rewrite Hrows, Hrow. simpl.
    rewrite Hfa. done.
  - intros u s Hne. rewrite Hrows. apply fmap_id_on.
    intros y Hy. apply filter_elem_of in Hy as [Hy Hp].
    apply Hf; [done|].
    intros ->. apply same_pair_spec in Hp as [<- <-].
    apply same_pair_spec in Hpair as [<- <-]. done.
Qed.

Lemma existsb_false_filter {A} (P : A -> bool) (rows : list A) :
  existsb P rows = false -> List.filter P rows = [].
Proof.
  induction rows as [|y rows IH]; simpl; [done|].
  destruct (P y); [done|]. auto.
Qed.

(** The result of a successful [UserSiteActivity.objects.create] with
    counter 1: the storage answered, only the activity table changed, and
    it recorded a first visit. *)
Lemma UserSiteActivity_create_Ok (env : Env) (uid sid : Z) (d d' : DB)
    (a : UserSiteActivity.t) :
  UserSiteActivity_create env uid sid 1 d = (d', Ok a) ->
  activities_wf (activities d) ->
  activity_storage_ok env = true
  /\ d' = with_activities (activities d') d
  /\ activities_wf (activities d')
  /\ visit_recorded uid sid (activities d) (activities d').
Proof.
  unfold UserSiteActivity_create. intros H Hwf.
  destruct (activity_storage_ok env); [|done]. simpl in H.
  destruct (existsb _ (activities d)) eqn:E; [done|].
  injection H as <- <-. split; [done|]. split; [by destruct d|].
  apply activity_created; [done|]. by apply existsb_false_filter.
Qed.

(** The same for the "Track activity" block of the views. *)
Lemma track_activity_Ok (env : Env) (uid sid : Z) (d d' : DB) :
  track_activity env uid sid d = (d', Ok tt) ->
  activities_wf (activities d) ->
  activity_storage_ok env = true
  /\ d' = with_activities (activities d') d
  /\ activities_wf (activities d')
  /\ visit_recorded uid sid (activities d) (activities d').
Proof.
  unfold track_activity, UserSiteActivity_get_or_create, bind.
  intros H Hwf.
  destruct (activity_storage_ok env) eqn:Hok; [|done]. cbn [negb] in H.
  unfold objects_get in H.
  destruct (List.filter (same_pair uid sid) (activities d))
    as [|a [|b rest]] eqn:Hrows.
  - destruct (UserSiteActivity_create env uid sid 1 d) as [d1 [a|e]] eqn:Hc;
      [|done].
    simpl in H. injection H as <-.
    split; [done|]. by eapply UserSiteActivity_create_Ok.
  - cbn in H. unfold UserSiteActivity_save in H. rewrite Hok in H.
    cbn in H. injection H as <-.
    split; [done|]. split; [by destruct d|].
    cbn [activities with_activities].
    by apply activity_incremented.
  - done.
Qed.

(** With the activity storage down the block raises and changes nothing. *)
Lemma track_activity_down (env : Env) (uid sid : Z) (d : DB) :
  activity_storage_ok env = false ->
  track_activity env uid sid d = (d, Raise DatabaseError).
Proof.
  intros Hdown.
  unfold track_activity, UserSiteActivity_get_or_create, bind.
  by rewrite Hdown.
Qed.

Lemma UserSiteActivity_create_down (env : Env) (uid sid n : Z) (d : DB) :
  activity_storage_ok env = false ->
  UserSiteActivity_create env uid sid n d = (d, Raise DatabaseError).
Proof. intros Hdown. unfold UserSiteActivity_create. by rewrite Hdown. Qed.

(** What a redemption answered 200 did. *)
Lemma exchange_auth_code_success (env : Env) (req : ExchangeRequest)
    (d d' : DB) (resp : Response) :
  exchange_auth_code env req d = (d', Ok resp) ->
  status resp = HTTP_200_OK ->
  exists site auth_data user profile,
    let key := cache_key_of (get_default (ex_code req) EmptyString) in
    BookSite_get_by_api_key (get_default (ex_api_key req) EmptyString) d = (d, Ok site)
    /\ cache_get env key d = (d, Ok (Some auth_data))
    /\ ad_target_site_id auth_data = BookSite.id site
    /\ UserProfile_get_by_user (User.id user) d = (d, Ok profile)
    /\ track_activity env (UserProfile.id profile) (BookSite.id site)
         (with_cache (delete key (cache d)) d) = (d', Ok tt)
    /\ resp = login_response user profile None.
Proof.
  unfold exchange_auth_code, lookup_site, BookSite_get_by_api_key,
    User_get_by_id, UserProfile_get_by_user, cache_get, cache_delete,
    InvalidOrExpiredCode, SiteMismatch, error_response, modify, read,
    try_except, raise, ret, bind.
  intros H Hst.
  repeat (case_match; simplify_eq/=).
  match goal with Hs : negb (bool_decide _) = false |- _ =>
    apply negb_false_iff, bool_decide_eq_true_1 in Hs end.
  match goal with Ht : track_activity _ _ _ _ = (_, Ok ?u) |- _ =>
    destruct u end.
  eexists _, _, _, _. split_and!; try reflexivity; try done.
  by f_equal.
Qed.

(** X3: a redemption answered 200 leaves no entry under the code's key, so
    the same code presented again by a registered site is answered
    [InvalidOrExpiredCode]. *)
Lemma exchange_auth_code_single_use (env env' : Env)
    (req req' : ExchangeRequest) (d d' : DB) (resp : Response)
    (site' : BookSite.t) :
  exchange_auth_code env req d = (d', Ok resp) ->
  status resp = HTTP_200_OK ->
  activities_wf (activities d) ->
  ex_code req' = ex_code req ->
  truthy (ex_api_key req') = true ->
  BookSite_get_by_api_key (get_default (ex_api_key req') EmptyString) d'
    = (d', Ok site') ->
  exchange_auth_code env' req' d' = (d', Ok InvalidOrExpiredCode).
Proof.
  intros Hrun Hst Hwf Hcode Hkey Hsite.
  assert (truthy (ex_code req) = true) as Hc.
  { unfold exchange_auth_code in Hrun.
    destruct (truthy (ex_code req)); [done|].
    rewrite orb_true_r in Hrun. by injection Hrun as <- <-. }
  destruct (exchange_auth_code_success _ _ _ _ _ Hrun Hst)
    as (site & ad & user & profile & _ & _ & _ & _ & Htrack & _).
  apply track_activity_Ok in Htrack as (_ & Hd' & _); [|done].
  unfold exchange_auth_code. rewrite Hkey, Hcode, Hc. cbn [negb orb].
  unfold lookup_site, try_except, bind. rewrite Hsite. cbn beta iota.
  unfold ret at 1. cbn beta iota zeta.
  unfold cache_get, read. rewrite Hd'. cbn [cache with_activities with_cache].
  rewrite lookup_delete_eq. reflexivity.
Qed.

(** ** Logins *)

Lemma elem_of_save_row {A} (key : A -> Z) (x : A) (rows : list A) :
  x ∈ save_row key x rows.
Proof.
  unfold save_row. destruct (existsb _ rows) eqn:E.
  - apply existsb_exists in E as (y & Hy & Hk).
    apply list_elem_of_fmap. exists y. rewrite Hk.
    split; [done|]. by apply list_elem_of_In.
  - apply elem_of_app. right. apply list_elem_of_here.
Qed.

Lemma elem_of_save_row_other {A} (key : A -> Z) (x y : A) (rows : list A) :
  y ∈ rows -> key y <> key x -> y ∈ save_row key x rows.
Proof.
  intros Hy Hne. unfold save_row. destruct (existsb _ rows).
  - apply list_elem_of_fmap. exists y.
    rewrite bool_decide_eq_false_2 by done. done.
  - apply elem_of_app. by left.
Qed.

(** Closes an [arrives] goal from the tracking step found among the
    hypotheses. *)
Ltac close_arrives :=
  match goal with
  | Ht : track_activity _ _ _ ?d1 = (_, Ok ?u)
    |- arrives _ _ _ _ (login_response ?user ?profile ?n) =>
      destruct u; eexists _, profile, user, n, d1;
      split_and!;
        [unfold BookSite_get_by_api_key; f_equal; eassumption
        |reflexivity| | |reflexivity|by left]
  | Hc : UserSiteActivity_create _ _ _ _ ?d1 = (_, Ok ?a)
    |- arrives _ _ _ _ (login_response ?user ?profile ?n) =>
      eexists _, profile, user, n, d1;
      split_and!;
        [unfold BookSite_get_by_api_key; f_equal; eassumption
        |reflexivity| | |reflexivity|right; by exists a]
  end.

Ltac close_member :=
  simpl;
  first
    [ apply elem_of_save_row
    | apply elem_of_save_row_other;
      [ apply elem_of_save_row
      | simpl; match goal with
               | Hn : negb (bool_decide _) = true |- _ =>
                   apply negb_true_iff, bool_decide_eq_false_1 in Hn;
                   congruence
               end ]
    | apply elem_of_app; right; apply list_elem_of_here
    | match goal with
      | Hg : objects_get _ _ _ = Ok ?p |- ?p ∈ _ =>
          apply objects_get_Ok in Hg as [Hg _]; exact Hg
      end ].

Ltac close_owner :=
  simpl;
  first
    [ reflexivity
    | match goal with
      | Hg : objects_get _ _ _ = Ok ?p |- UserProfile.user ?p = _ =>
          apply objects_get_Ok in Hg as [_ Hg];
          by apply bool_decide_eq_true_1 in Hg
      | Hg : objects_get MUser _ _ = Ok ?u |- _ = User.id ?u =>
          apply objects_get_Ok in Hg as [_ Hg];
          apply bool_decide_eq_true_1 in Hg; by rewrite Hg
      end ].

Lemma exchange_auth_code_arrives (env : Env) (req : ExchangeRequest)
    (d d' : DB) (resp : Response) :
  exchange_auth_code env req d = (d', Ok resp) ->
  status resp = HTTP_200_OK ->
  arrives env (get_default (ex_api_key req) EmptyString) d d' resp.
Proof.
  intros Hrun Hst.
  destruct (exchange_auth_code_success _ _ _ _ _ Hrun Hst)
    as (site & ad & user & profile & Hsite & _ & _ & Hp & Htrack & ->).
  exists site, profile, user, None.
  match type of Htrack with track_activity _ _ _ ?d1 = _ => exists d1 end.
  split; [done|].
  split; [done|]. split_and!; [| |reflexivity|by left].
  - unfold UserProfile_get_by_user in Hp. injection Hp as Hp.
    apply objects_get_Ok in Hp as [Hin _]. exact Hin.
  - unfold UserProfile_get_by_user in Hp. injection Hp as Hp.
    apply objects_get_Ok in Hp as [_ Hu]. by apply bool_decide_eq_true_1 in Hu.
Qed.

Lemma distributed_login_arrives (env : Env) (rnd : Oracle)
    (req : LoginRequest) (d d' : DB) (resp : Response) :
  distributed_login env rnd req d = (d', Ok resp) ->
  status resp = HTTP_200_OK ->
  arrives env (get_default (lr_api_key req) EmptyString) d d' resp.
Proof.
  unfold distributed_login, lookup_site, BookSite_get_by_api_key,
    authenticate, User_email_exists, User_create_user, UserProfile_create,
    UserProfile_get_by_user, UserProfile_get_by_referral_code,
    UserProfile_save, CreditTransaction_create,
    error_response, modify, read, try_except, raise, ret, bind.
  intros H Hst.
  repeat (case_match; simplify_eq/=).
  all: close_arrives; [close_member|close_owner].
Qed.

Lemma google_sso_login_arrives (env : Env) (rnd : Oracle)
    (req : GoogleRequest) (d d' : DB) (resp : Response) :
  google_sso_login env rnd req d = (d', Ok resp) ->
  status resp = HTTP_200_OK ->
  arrives env (get_default (gr_api_key req) EmptyString) d d' resp.
Proof.
  unfold google_sso_login, lookup_site, BookSite_get_by_api_key, lift, item,
    User_get_by_id, User_get_by_email, UserProfile_get_by_google_id,
    UserProfile_get_by_user, User_create_user, UserProfile_create,
    UserProfile_get_by_referral_code, UserProfile_save,
    CreditTransaction_create, error_response, modify, read, try_except,
    raise, ret, bind.
  intros H Hst.
  repeat (case_match; simplify_eq/=).
  all: close_arrives; [close_member|close_owner].
Qed.

Lemma visit_arrives (env : Env) (v : Visit) (d d' : DB) (resp : Response) :
  visit env v d = (d', Ok resp) ->
  status resp = HTTP_200_OK ->
  arrives env (visit_api_key v) d d' resp.
Proof.
  destruct v; simpl.
  - apply distributed_login_arrives.
  - apply google_sso_login_arrives.
  - apply exchange_auth_code_arrives.
Qed.

(** An arrival needs the activity storage. *)
Lemma arrives_storage_ok (env : Env) (key : string) (d d' : DB)
    (resp : Response) :
  arrives env key d d' resp -> activity_storage_ok env = true.
Proof.
  intros (site & profile & user & is_new & d1 & _ & _ & _ & _ & _ & Hstep).
  destruct (activity_storage_ok env) eqn:Hok; [done|].
  destruct Hstep as [Ht|[a Hc]].
  - by rewrite track_activity_down in Ht.
  - by rewrite UserSiteActivity_create_down in Hc.
Qed.




(** C8 (amended), the general fact: when the activity-tracking storage
    fails, no login and no redemption is answered with success; the
    failure of the upsert ends the parent operation. *)
Theorem tracking_failure_aborts (env : Env) (v : Visit) (d : DB) :
  activity_storage_ok env = false ->
  is_success (visit env v d).2 = false.
Proof.
  intros Hdown. destruct (visit env v d) as [d' [resp|e]] eqn:Hrun; [|done].
  simpl. apply bool_decide_eq_false_2. intros Hst.
  apply visit_arrives in Hrun; [|done].
  apply arrives_storage_ok in Hrun. congruence.
Qed.

Lemma tracking_failure_counterexample :
  let req := mkLoginRequest (Some "key-alpha") (Some "alice@example.com")
               (Some "wonderland") None None None in
  let redeem := mkExchangeRequest (Some "AC_tok") (Some "key-beta") in
  is_success (distributed_login Sample.env Sample.oracle req Sample.db).2
    = true
  /\ distributed_login Runs.env_down Sample.oracle req Sample.db
     = (Sample.db, Raise DatabaseError)
  /\ is_success (exchange_auth_code Sample.env redeem Sample.db_with_code).2
     = true
  /\ (exchange_auth_code Runs.env_down redeem Sample.db_with_code).2
     = Raise DatabaseError.
Proof. split_and!; vm_compute; reflexivity. Qed.

Lemma tracking_failure_aborts_witness :
  is_success (visit Runs.env_down Runs.alice_login Sample.db).2 = false.
Proof.
  apply (tracking_failure_aborts Runs.env_down Runs.alice_login Sample.db).
  reflexivity.
Defined.

(** ** Provisioning with a referral code *)

(** A row found in a table is the row found after one more row is
    appended, unless the new row matches too. *)
Lemma objects_get_snoc {A} (m : Model) (P : A -> bool) (rows : list A)
    (x r r' : A) :
  objects_get m P rows = Ok r ->
  objects_get m P (rows ++ [x]) = Ok r' ->
  r' = r /\ P x = false.
Proof.
  unfold objects_get. rewrite List.filter_app. simpl.
  destruct (List.filter P rows) as [|y [|z rest]]; [done| |done].
  intros [= ->]. destruct (P x); simpl; [done|]. intros [= ->]. done.
Qed.

Lemma objects_get_snoc_found {A} (m : Model) (P : A -> bool) (rows : list A)
    (x r : A) (e : Exn) :
  objects_get m P rows = Ok r ->
  objects_get m P (rows ++ [x]) = Raise e ->
  e = MultipleObjectsReturned.
Proof.
  unfold objects_get. rewrite List.filter_app. simpl.
  destruct (List.filter P rows) as [|y [|z rest]]; [done| |done].
  intros _. destruct (P x); simpl; [|done]. by intros [= <-].
Qed.

(** X25: a password login that provisions a new account (answer 200 with
    is_new_user) with a referral code that resolves to an existing account:
    the new account is a row of its own, distinct from the referrer's, with
    balance 10 and lifetime-earned 10; the referrer's balance and
    lifetime-earned are 10 higher; and exactly two transaction rows are
    appended, one welcome_bonus of 10 for the new account (no separate row
    of 5) and one referral_bonus of 10 for the referrer. *)
Theorem distributed_login_referral_bonus (env : Env) (rnd : Oracle)
    (req : LoginRequest) (d d' : DB) (user : User.t) (credits : Z)
    (code : string) (referrer : UserProfile.t) :
  distributed_login env rnd req d
    = (d', Ok (mkResponse HTTP_200_OK
                 (LoginBody user credits code (Some true)))) ->
  truthy (lr_referral_code req) = true ->
  UserProfile_get_by_referral_code (get_default (lr_referral_code req) EmptyString) d
    = (d, Ok referrer) ->
  NoDup (UserProfile.id <$> profiles d) ->
  exists profile referrer' t1 t2,
    UserProfile.id profile = next_id (UserProfile.id <$> profiles d)
    /\ UserProfile.id profile <> UserProfile.id referrer
    /\ UserProfile_get_by_id (UserProfile.id profile) d' = (d', Ok profile)
    /\ UserProfile.user profile = User.id user
    /\ UserProfile.credits profile = 10
    /\ credits = 10
    /\ UserProfile.total_credits_earned profile = 10
    /\ UserProfile.total_credits_spent profile = 0
    /\ UserProfile.referred_by profile = Some (UserProfile.id referrer)
    /\ UserProfile_get_by_id (UserProfile.id referrer) d' = (d', Ok referrer')
    /\ UserProfile.credits referrer' = UserProfile.credits referrer + 10
    /\ UserProfile.total_credits_earned referrer'
       = UserProfile.total_credits_earned referrer + 10
    /\ UserProfile.total_credits_spent referrer'
       = UserProfile.total_credits_spent referrer
    /\ transactions d' = transactions d ++ [t1; t2]
    /\ CreditTransaction.user t1 = UserProfile.id profile
    /\ CreditTransaction.transaction_type t1 = "welcome_bonus"
    /\ CreditTransaction.amount t1 = 10
    /\ CreditTransaction.user t2 = UserProfile.id referrer
    /\ CreditTransaction.transaction_type t2 = "referral_bonus"
    /\ CreditTransaction.amount t2 = 10.
Proof.
  intros H Hrc Href Hnd.
  unfold UserProfile_get_by_referral_code in Href. injection Href as Href.
  revert H.
  unfold distributed_login, lookup_site, BookSite_get_by_api_key,
    authenticate, User_email_exists, User_create_user, UserProfile_create,
    UserProfile_get_by_user, UserProfile_get_by_referral_code,
    UserProfile_save, CreditTransaction_create, UserSiteActivity_create,
    track_activity, login_response,
    error_response, modify, read, try_except, raise, ret, bind.
  intros H.
  repeat (case_match; simplify_eq/=).
  - match goal with
    | Hg : objects_get _ _ (profiles _ ++ [_]) = Ok _ |- _ =>
        destruct (objects_get_snoc _ _ _ _ _ _ Href Hg) as [-> _]; clear Hg
    end.
    match goal with
    | Hn : negb (bool_decide _) = true |- _ =>
        apply negb_true_iff, bool_decide_eq_false_1 in Hn; rename Hn into Hne
    end.
    assert (NoDup (UserProfile.id <$>
                   profiles d0 ++
                   [UserProfile.mk (next_id (UserProfile.id <$> profiles d0))
                      (next_id (User.id <$> users d0)) EmptyString (uuid4 rnd) None
                      5 0 0])) as Hnd1.
    { rewrite fmap_app. apply NoDup_app.
      split_and!; [done| |apply NoDup_singleton].
      intros k Hk Hk'. apply list_elem_of_singleton in Hk'. subst k.
      by apply next_id_fresh in Hk. }
    exists (UserProfile.mk (next_id (UserProfile.id <$> profiles d0))
              (next_id (User.id <$> users d0)) EmptyString (uuid4 rnd)
              (Some (UserProfile.id referrer)) 10 10 0),
           (UserProfile.set_total_credits_earned
              (UserProfile.total_credits_earned referrer + 10)
              (UserProfile.set_credits (UserProfile.credits referrer + 10)
                 referrer)).
    eexists _, _. split; [reflexivity|].
    split; [simpl; congruence|].
    split.
    { unfold UserProfile_get_by_id. f_equal.
      cbn [profiles with_activities with_transactions with_profiles
           with_users].
      rewrite get_other_saved by (simpl; congruence).
      match goal with
      | |- objects_get _ _ (save_row _ ?p _) = _ =>
          apply (get_saved UserProfile.id MUserProfile p)
      end.
      exact Hnd1. }
    do 6 (split; [reflexivity|]).
    split.
    { unfold UserProfile_get_by_id. f_equal.
      cbn [profiles with_activities with_transactions with_profiles
           with_users].
      match goal with
      | |- objects_get _ _ (save_row _ ?p _) = _ =>
          apply (get_saved UserProfile.id MUserProfile p)
      end.
      by apply save_row_NoDup. }
    do 3 (split; [reflexivity|]).
    split; [simpl; by rewrite <- app_assoc|].
    split_and!; reflexivity.
  - (* the looked-up referrer cannot be the account just created *)
    match goal with
    | Hg : objects_get _ _ (profiles _ ++ [_]) = Ok _ |- _ =>
        destruct (objects_get_snoc _ _ _ _ _ _ Href Hg) as [-> _]; clear Hg
    end.
    match goal with
    | Hn : negb (bool_decide _) = false |- _ =>
        apply negb_false_iff, bool_decide_eq_true_1 in Hn; rename Hn into He
    end.
    exfalso. apply objects_get_Ok in Href as [Hin _].
    apply (next_id_fresh UserProfile.id (profiles d0)). rewrite <- He.
    by apply list_elem_of_fmap_2.
  - (* the referral code still resolves after the new row is added *)
    match goal with
    | Hg : objects_get _ _ (profiles _ ++ [_]) = Raise ?e |- _ =>
        pose proof (objects_get_snoc_found _ _ _ _ _ _ Href Hg) as ->
    end.
    done.
Qed.

Lemma distributed_login_referral_bonus_witness :
  let req := mkLoginRequest (Some "key-alpha") (Some "carol@example.com")
               (Some "looking-glass") (Some "REF-ALICE") None None in
  let d' := (distributed_login Sample.env Sample.oracle req Sample.db).1 in
  exists profile referrer' t1 t2,
    UserProfile_get_by_id 2 d' = (d', Ok profile)
    /\ UserProfile.credits profile = 10
    /\ UserProfile_get_by_id 1 d' = (d', Ok referrer')
    /\ UserProfile.credits referrer' = 15
    /\ transactions d' = [t1; t2]
    /\ CreditTransaction.amount t1 = 10
    /\ CreditTransaction.amount t2 = 10.
Proof.
  intros req d'.
  destruct (distributed_login_referral_bonus Sample.env Sample.oracle req
              Sample.db d'
              (User.mk 2 "carol@example.com" "carol@example.com"
                       (Some "looking-glass") EmptyString EmptyString)
              10 "REF-NEW" Sample.alice_profile)
    as (profile & referrer' & t1 & t2 & Hid & _ & Hp & _ & Hc & _ & _ & _ & _
        & Hr & Hrc & _ & _ & Htx & _ & _ & Ht1 & _ & _ & Ht2).
  - vm_compute. reflexivity.
  - reflexivity.
  - reflexivity.
  - simpl. apply NoDup_singleton.
  - exists profile, referrer', t1, t2. rewrite Hid in Hp.
    split_and!; done.
Defined.

(** Password sign-up creates every account with [google_id=''] (views.py
    190-194), on a column that is unique: once one account row has an
    empty google id, no password login provisions an account any more. *)
Lemma blank_google_id_blocks_signup (env : Env) (rnd : Oracle)
    (req : LoginRequest) (d d' : DB) (resp : Response) (p : UserProfile.t)
    (user : User.t) (credits : Z) (code : string) :
  p ∈ profiles d ->
  UserProfile.google_id p = EmptyString ->
  distributed_login env rnd req d = (d', Ok resp) ->
  body resp <> LoginBody user credits code (Some true).
Proof.
  intros Hin Hblank.
  unfold distributed_login, lookup_site, BookSite_get_by_api_key,
    authenticate, User_email_exists, User_create_user, UserProfile_create,
    UserProfile_get_by_user, login_response,
    error_response, read, try_except, raise, ret, bind.
  intros H.
  repeat (case_match; simplify_eq/=); try done.
  all: match goal with
       | Hex : existsb _ (profiles _) = false |- _ =>
           exfalso; apply not_true_iff_false in Hex; apply Hex;
           apply existsb_exists; exists p; split;
             [by apply list_elem_of_In|];
           rewrite (bool_decide_eq_true_2 _ Hblank);
           by rewrite orb_true_r
       end.
Qed.

(** C6, at the failing input: Carol has signed up with a password and
    Alice's referral code, and both were granted their 10 credits.  Dave
    signs up in the same way, with a referral code that still resolves to
    Alice.  The view creates his user row, fails to create his account row
    (its empty google id is Carol's too), and answers 500: Dave has no
    account and no welcome_bonus, Alice's balance is not raised, and no
    ledger entry is written. *)
Theorem distributed_login_second_signup_fails :
  let d := Runs.after_carol in
  exists carol dave referrer d',
    distributed_login Sample.env Sample.oracle Runs.carol_signup Sample.db
      = (d, Ok (mkResponse HTTP_200_OK
                  (LoginBody carol 10 "REF-NEW" (Some true))))
    /\ UserProfile_get_by_referral_code "REF-ALICE" d = (d, Ok referrer)
    /\ UserProfile.credits referrer = 15
    /\ User_email_exists "dave@example.com" d = (d, Ok false)
    /\ distributed_login Sample.env Runs.dave_oracle Runs.dave_signup d
       = (d', Ok (error_response "Failed to create account"
                    HTTP_500_INTERNAL_SERVER_ERROR))
    /\ User_get_by_email "dave@example.com" d' = (d', Ok dave)
    /\ UserProfile_get_by_user (User.id dave) d'
       = (d', Raise (DoesNotExist MUserProfile))
    /\ profiles d' = profiles d
    /\ transactions d' = transactions d.
Proof.
  intros d. eexists _, _, _, _.
  split; [vm_compute; reflexivity|].
  split; [vm_compute; reflexivity|].
  split; [reflexivity|].
  split; [vm_compute; reflexivity|].
  split; [vm_compute; reflexivity|].
  split; [vm_compute; reflexivity|].
  split; [vm_compute; reflexivity|].
  split; vm_compute; reflexivity.
Qed.





Lemma visits_in_nonneg (uid sid : Z) (trace : list (Z * Z)) :
  0 <= visits_in uid sid trace.
Proof. unfold visits_in. lia. Qed.

(** ** Issuing and redeeming a handoff code *)

(** The site lookup of the keyed views, run on a key that resolves. *)
Lemma lookup_site_found (key : string) (d : DB) (site : BookSite.t) :
  BookSite_get_by_api_key key d = (d, Ok site) ->
  lookup_site key d = (d, Ok (Some site)).
Proof.
  intros H. unfold lookup_site, try_except, bind. rewrite H. reflexivity.
Qed.

(** ... and on a key that no active site has. *)
Lemma lookup_site_unknown (key : string) (d : DB) :
  BookSite_get_by_api_key key d = (d, Raise (DoesNotExist MBookSite)) ->
  lookup_site key d = (d, Ok None).
Proof.
  intros H. unfold lookup_site, try_except, bind. rewrite H. reflexivity.
Qed.



(** What [generate_auth_code] does for a registered, active destination
    and a user with an account: one cache entry, nothing else. *)
Lemma generate_auth_code_issues (env : Env) (rnd : Oracle)
    (req : GenerateRequest) (d : DB) (dom : string) (target : BookSite.t)
    (profile : UserProfile.t) :
  gen_target_site req = Some dom ->
  dom <> EmptyString ->
  BookSite_get_by_domain dom d = (d, Ok target) ->
  UserProfile_get_by_user (gen_user req) d = (d, Ok profile) ->
  let code := String.append "AC_" (token_urlsafe rnd) in
  generate_auth_code env rnd req d
  = (with_cache
       (<[cache_key_of code :=
            (mkAuthData (gen_user req) (BookSite.id target) (now env + 300),
             now env + 300)]> (cache d)) d,
     Ok (mkResponse HTTP_200_OK
           (CodeBody code
              (String.append "https://"
                 (String.append dom
                    (String.append "/auth/login?code=" code)))
              300))).
Proof.
  intros Hdom Hne Htarget Hprofile code.
  unfold generate_auth_code. rewrite Hdom. cbn [truthy get_default].
  rewrite bool_decide_eq_false_2 by done. cbn [negb].
  unfold bind at 1. unfold try_except, bind at 1. rewrite Htarget.
  cbn beta iota. unfold ret at 1. cbn beta iota zeta.
  unfold bind at 1. rewrite Hprofile. reflexivity.
Qed.


(** X2: a code presented 300 seconds or more after it was issued is refused as
    invalid or expired, and the refusal changes nothing. *)
Theorem handoff_code_expires (env env' : Env) (rnd : Oracle)
    (req : GenerateRequest) (key dom : string) (d : DB)
    (target site : BookSite.t) (profile : UserProfile.t) :
  gen_target_site req = Some dom ->
  dom <> EmptyString ->
  key <> EmptyString ->
  BookSite_get_by_domain dom d = (d, Ok target) ->
  BookSite_get_by_api_key key d = (d, Ok site) ->
  UserProfile_get_by_user (gen_user req) d = (d, Ok profile) ->
  now env + 300 <= now env' ->
  exists d1 code url,
    generate_auth_code env rnd req d
      = (d1, Ok (mkResponse HTTP_200_OK (CodeBody code url 300)))
    /\ exchange_auth_code env' (mkExchangeRequest (Some code) (Some key)) d1
       = (d1, Ok InvalidOrExpiredCode).
Proof.
  intros Hdom Hne Hkey Htarget Hsite Hprofile Hlate.
  pose proof (generate_auth_code_issues env rnd req d dom target profile
                Hdom Hne Htarget Hprofile) as Hgen. cbn zeta in Hgen.
  eexists _, _, _. split; [exact Hgen|].
  unfold exchange_auth_code. cbn [ex_api_key ex_code truthy get_default].
  rewrite (bool_decide_eq_false_2 _ Hkey).
  rewrite bool_decide_eq_false_2 by done. cbn [negb orb].
  unfold bind at 1. rewrite (lookup_site_found key _ site);
    [|unfold BookSite_get_by_api_key in *; injection Hsite as Hsite;
      cbn [sites with_cache]; by rewrite Hsite].
  unfold bind at 1. unfold cache_get, read. cbn [cache with_cache].
  rewrite lookup_insert_eq.
  apply Z.ltb_ge in Hlate. rewrite Hlate. reflexivity.
Qed.

Lemma sample_activities_wf : activities_wf (activities Sample.db).
Proof. split; [constructor|]. intros uid sid. simpl. lia. Qed.


Lemma handoff_code_expires_witness :
  exists d1 code url,
    generate_auth_code Sample.env Sample.oracle
      (mkGenerateRequest 1 (Some "beta.example")) Sample.db
      = (d1, Ok (mkResponse HTTP_200_OK (CodeBody code url 300)))
    /\ exchange_auth_code (mkEnv 1300 true)
         (mkExchangeRequest (Some code) (Some "key-beta")) d1
       = (d1, Ok InvalidOrExpiredCode).
Proof.
  apply (handoff_code_expires Sample.env (mkEnv 1300 true) Sample.oracle
           (mkGenerateRequest 1 (Some "beta.example")) "key-beta"
           "beta.example" Sample.db Sample.beta Sample.beta
           Sample.alice_profile).
  - reflexivity.
  - discriminate.
  - discriminate.
  - reflexivity.
  - reflexivity.
  - reflexivity.
  - simpl. lia.
Defined.

(** ** API keys *)

Lemma no_active_site_lookup (key : string) (d : DB) :
  (forall s, s ∈ sites d -> BookSite.api_key s = key ->
             BookSite.is_active s = false) ->
  lookup_site key d = (d, Ok None).
Proof.
  intros Hnone. apply lookup_site_unknown.
  unfold BookSite_get_by_api_key, objects_get.
  rewrite (existsb_false_filter _ (sites d)); [done|].
  apply not_true_iff_false. intros Hex.
  apply existsb_exists in Hex as (s & Hin & Hs).
  apply andb_true_iff in Hs as [Hk Ha].
  apply bool_decide_eq_true_1 in Hk.
  apply list_elem_of_In in Hin. rewrite (Hnone s Hin Hk) in Ha. done.
Qed.

(** X6: every view that takes an API key refuses a request whose key is
    missing, empty, unknown or belongs only to deactivated sites, with a
    401 (a 400 where the view checks its other inputs in the same test),
    and leaves the database and the cache untouched. *)
Theorem keyed_views_refuse_bad_key (env : Env) (rnd : Oracle) (d : DB)
    (credits_req : CreditsRequest) (login_req : LoginRequest)
    (google_req : GoogleRequest) (exchange_req : ExchangeRequest) :
  key_refused (cr_api_key credits_req) d ->
  key_refused (lr_api_key login_req) d ->
  key_refused (gr_api_key google_req) d ->
  key_refused (ex_api_key exchange_req) d ->
  (exists resp, update_credits credits_req d = (d, Ok resp)
                /\ status resp = HTTP_401_UNAUTHORIZED)
  /\ (exists resp, distributed_login env rnd login_req d = (d, Ok resp)
                   /\ status resp = HTTP_401_UNAUTHORIZED)
  /\ (exists resp, google_sso_login env rnd google_req d = (d, Ok resp)
                   /\ (status resp = HTTP_401_UNAUTHORIZED
                       \/ status resp = HTTP_400_BAD_REQUEST))
  /\ (exists resp, exchange_auth_code env exchange_req d = (d, Ok resp)
                   /\ (status resp = HTTP_401_UNAUTHORIZED
                       \/ status resp = HTTP_400_BAD_REQUEST)).
Proof.
  intros Hc Hl Hg He. split_and!.
  - unfold update_credits. destruct Hc as [Hc|Hc].
    + rewrite Hc. by eexists.
    + destruct (truthy (cr_api_key credits_req)); [|by eexists].
      cbn [negb]. unfold bind. rewrite (no_active_site_lookup _ _ Hc).
      by eexists.
  - unfold distributed_login. destruct Hl as [Hl|Hl].
    + rewrite Hl. by eexists.
    + destruct (truthy (lr_api_key login_req)); [|by eexists].
      cbn [negb]. unfold bind. rewrite (no_active_site_lookup _ _ Hl).
      by eexists.
  - unfold google_sso_login. destruct Hg as [Hg|Hg].
    + rewrite Hg. eexists. split; [reflexivity|by right].
    + destruct (negb (truthy (gr_api_key google_req))
                || negb (truthy (gr_google_token google_req)));
        [eexists; split; [reflexivity|by right]|].
      unfold bind. rewrite (no_active_site_lookup _ _ Hg).
      eexists. split; [reflexivity|by left].
  - unfold exchange_auth_code. destruct He as [He|He].
    + rewrite He. eexists. split; [reflexivity|by right].
    + destruct (negb (truthy (ex_api_key exchange_req))
                || negb (truthy (ex_code exchange_req)));
        [eexists; split; [reflexivity|by right]|].
      unfold bind. rewrite (no_active_site_lookup _ _ He).
      eexists. split; [reflexivity|by left].
Qed.

Lemma gamma_key_refused : key_refused (Some "key-gamma") Network.db.
Proof.
  right. intros s Hin Hk. simpl in Hin, Hk.
  repeat (apply elem_of_cons in Hin as [->|Hin]); try discriminate Hk.
  - reflexivity.
  - inversion Hin.
Qed.

Lemma keyed_views_refuse_bad_key_witness :
  (exists resp,
     update_credits
       (mkCreditsRequest (Some "key-gamma") 1 (Some 3) None None) Network.db
     = (Network.db, Ok resp)
     /\ status resp = HTTP_401_UNAUTHORIZED)
  /\ (exists resp,
        exchange_auth_code Sample.env
          (mkExchangeRequest (Some "AC_tok") (Some "key-gamma")) Network.db
        = (Network.db, Ok resp)
        /\ (status resp = HTTP_401_UNAUTHORIZED
            \/ status resp = HTTP_400_BAD_REQUEST)).
Proof.
  destruct (keyed_views_refuse_bad_key Sample.env Sample.oracle Network.db
              (mkCreditsRequest (Some "key-gamma") 1 (Some 3) None None)
              (mkLoginRequest (Some "key-gamma") None None None None None)
              (mkGoogleRequest (Some "key-gamma") None None)
              (mkExchangeRequest (Some "AC_tok") (Some "key-gamma"))
              gamma_key_refused gamma_key_refused gamma_key_refused
              gamma_key_refused)
    as (Hc & _ & _ & He).
  split; assumption.
Defined.

(** ** Password login *)

(** X8: a wrong password for an address that is registered is refused with
    401 "Invalid credentials"; nothing is created or changed. *)
Theorem distributed_login_wrong_password (env : Env) (rnd : Oracle)
    (req : LoginRequest) (d : DB) (site : BookSite.t) (email pw : string) :
  truthy (lr_api_key req) = true ->
  BookSite_get_by_api_key (get_default (lr_api_key req) EmptyString) d
    = (d, Ok site) ->
  lr_email req = Some email -> email <> EmptyString ->
  lr_password req = Some pw -> pw <> EmptyString ->
  authenticate email pw d = (d, Ok None) ->
  User_email_exists email d = (d, Ok true) ->
  distributed_login env rnd req d
  = (d, Ok (error_response "Invalid credentials" HTTP_401_UNAUTHORIZED)).
Proof.
  intros Hkey Hsite He Hne Hp Hnp Hauth Hex.
  unfold distributed_login. rewrite Hkey. cbn [negb].
  unfold bind at 1. rewrite (lookup_site_found _ _ _ Hsite).
  rewrite He, Hp. cbn [truthy get_default].
  rewrite !bool_decide_eq_false_2 by done. cbn [negb orb].
  unfold bind at 1. rewrite Hauth.
  unfold try_except, bind at 1. rewrite Hex. reflexivity.
Qed.

Lemma distributed_login_wrong_password_witness :
  distributed_login Sample.env Sample.oracle
    (mkLoginRequest (Some "key-alpha") (Some "alice@example.com")
       (Some "mad-hatter") None None None) Sample.db
  = (Sample.db,
     Ok (error_response "Invalid credentials" HTTP_401_UNAUTHORIZED)).
Proof.
  apply (distributed_login_wrong_password Sample.env Sample.oracle _
           Sample.db Sample.alpha "alice@example.com" "mad-hatter");
    try reflexivity; discriminate.
Defined.

Lemma save_row_last {A} (key : A -> Z) (x x' : A) (rows : list A) :
  key x' = key x ->
  key x ∉ key <$> rows ->
  save_row key x' (rows ++ [x]) = rows ++ [x'].
Proof.
  intros Hk Hfresh. unfold save_row. rewrite existsb_app. simpl.
  rewrite Hk, (bool_decide_eq_true_2 (key x = key x)) by done.
  rewrite orb_true_r, fmap_app. simpl.
  rewrite (bool_decide_eq_true_2 (key x = key x)) by done. f_equal.
  apply fmap_id_on. intros y Hy.
  rewrite bool_decide_eq_false_2; [done|]. intros E. apply Hfresh.
  rewrite <- E. by apply list_elem_of_fmap_2.
Qed.

Lemma objects_get_missing {A} (m m' : Model) (P : A -> bool) (rows : list A) :
  objects_get m P rows = Raise (DoesNotExist m') ->
  List.filter P rows = [].
Proof.
  unfold objects_get. by destruct (List.filter P rows) as [|x [|y rest]].
Qed.

(** A row found after one row was appended to a table in which none
    matched is the appended row. *)
Lemma objects_get_snoc_new {A} (m m' : Model) (P : A -> bool)
    (rows : list A) (x r : A) :
  objects_get m P rows = Raise (DoesNotExist m') ->
  objects_get m P (rows ++ [x]) = Ok r ->
  r = x /\ P x = true.
Proof.
  intros Hnone. apply objects_get_missing in Hnone.
  unfold objects_get. rewrite List.filter_app, Hnone. simpl.
  destruct (P x); [|done]. by intros [= ->].
Qed.

Lemma objects_get_snoc_missing {A} (m m' m'' : Model) (P : A -> bool)
    (rows : list A) (x : A) :
  objects_get m P rows = Raise (DoesNotExist m') ->
  objects_get m P (rows ++ [x]) = Raise (DoesNotExist m'') ->
  P x = false.
Proof.
  intros Hnone. apply objects_get_missing in Hnone.
  unfold objects_get. rewrite List.filter_app, Hnone. simpl.
  by destruct (P x).
Qed.

(** X9: a password login that provisions a new account without a usable
    referral code (none supplied, or one that no account has): the new
    account is appended with balance 5, lifetime-earned 5 and no referrer,
    every other account row is as before, and exactly one transaction row
    is appended, a welcome_bonus of 5 for the new account. *)
Theorem distributed_login_plain_welcome (env : Env) (rnd : Oracle)
    (req : LoginRequest) (d d' : DB) (user : User.t) (credits : Z)
    (code : string) :
  distributed_login env rnd req d
    = (d', Ok (mkResponse HTTP_200_OK
                 (LoginBody user credits code (Some true)))) ->
  truthy (lr_referral_code req) = false
  \/ (UserProfile_get_by_referral_code
        (get_default (lr_referral_code req) EmptyString) d
      = (d, Raise (DoesNotExist MUserProfile))
      /\ uuid4 rnd <> get_default (lr_referral_code req) EmptyString) ->
  exists profile t,
    profiles d' = profiles d ++ [profile]
    /\ UserProfile.id profile = next_id (UserProfile.id <$> profiles d)
    /\ UserProfile.user profile = User.id user
    /\ UserProfile.referral_code profile = code
    /\ code = uuid4 rnd
    /\ UserProfile.credits profile = 5
    /\ credits = 5
    /\ UserProfile.total_credits_earned profile = 5
    /\ UserProfile.total_credits_spent profile = 0
    /\ UserProfile.referred_by profile = None
    /\ transactions d' = transactions d ++ [t]
    /\ CreditTransaction.user t = UserProfile.id profile
    /\ CreditTransaction.transaction_type t = "welcome_bonus"
    /\ CreditTransaction.amount t = 5.
Proof.
  intros H Href. revert H.
  unfold distributed_login, lookup_site, BookSite_get_by_api_key,
    authenticate, User_email_exists, User_create_user, UserProfile_create,
    UserProfile_get_by_user, UserProfile_get_by_referral_code,
    UserProfile_save, CreditTransaction_create, UserSiteActivity_create,
    track_activity, login_response,
    error_response, modify, read, try_except, raise, ret, bind.
  intros H.
  repeat (case_match; simplify_eq/=).
  all: destruct Href as [Href|[Href Hfresh]]; try done.
  all: try (unfold UserProfile_get_by_referral_code in Href;
            injection Href as Href).
  all: try match goal with
       | Hg : objects_get _ _ (profiles _ ++ [_]) = Ok _ |- _ =>
           destruct (objects_get_snoc_new _ _ _ _ _ _ Href Hg) as [-> Hp];
           simpl in *;
           try (apply bool_decide_eq_true_1 in Hp; congruence);
           match goal with
           | Hn : negb (bool_decide (?x = ?x)) = true |- _ =>
               by rewrite bool_decide_eq_true_2 in Hn
           end
       end.
  all: eexists _, _; split;
    [apply save_row_last; [reflexivity|apply next_id_fresh]|];
    split_and!; reflexivity.
Qed.

Lemma distributed_login_plain_welcome_witness :
  let req := mkLoginRequest (Some "key-alpha") (Some "carol@example.com")
               (Some "looking-glass") (Some "NO-SUCH-CODE") None None in
  let d' := (distributed_login Sample.env Sample.oracle req Sample.db).1 in
  exists profile t,
    profiles d' = profiles Sample.db ++ [profile]
    /\ UserProfile.credits profile = 5
    /\ UserProfile.total_credits_earned profile = 5
    /\ transactions d' = [t]
    /\ CreditTransaction.amount t = 5.
Proof.
  intros req d'.
  destruct (distributed_login_plain_welcome Sample.env Sample.oracle req
              Sample.db d'
              (User.mk 2 "carol@example.com" "carol@example.com"
                       (Some "looking-glass") EmptyString EmptyString)
              5 "REF-NEW")
    as (profile & t & Hp & _ & _ & _ & _ & Hc & _ & He & _ & _ & Ht & _ & _
        & Ha).
  - vm_compute. reflexivity.
  - right. split; [reflexivity|discriminate].
  - exists profile, t. split_and!; done.
Defined.

(** The tracking block touches the activity table only. *)
Lemma track_activity_frame (env : Env) (uid sid : Z) (d d' : DB)
    (r : Result unit) :
  track_activity env uid sid d = (d', r) ->
  d' = with_activities (activities d') d.
Proof.
  unfold track_activity, UserSiteActivity_get_or_create,
    UserSiteActivity_create, UserSiteActivity_save, ret, bind.
  intros H. repeat (case_match; simplify_eq/=); try reflexivity.
  all: match goal with |- ?x = _ => by destruct x end.
Qed.

(** A row found in a table extended by one fresh row is an old row, or it
    is the fresh one and carries the fresh key. *)
Lemma objects_get_snoc_cases {A} (key : A -> Z) (m : Model) (P : A -> bool)
    (rows : list A) (x r : A) :
  objects_get m P (rows ++ [x]) = Ok r ->
  (r ∈ rows /\ key r <> next_id (key <$> rows))
  \/ (r = x /\ P x = true).
Proof.
  intros Hg. apply objects_get_Ok in Hg as [Hin HP].
  apply elem_of_app in Hin as [Hin|Hin].
  - left. split; [done|]. intros E.
    apply (next_id_fresh key rows). rewrite <- E.
    by apply list_elem_of_fmap_2.
  - right. apply list_elem_of_singleton in Hin. by subst.
Qed.

(** X10: a password login answered 200 keeps, for every account row, balance =
    lifetime earned - lifetime spent, provided the referral code supplied
    is not the very code drawn for the account being created. *)
Theorem distributed_login_keeps_ledger_invariant (env : Env) (rnd : Oracle)
    (req : LoginRequest) (d d' : DB) (resp : Response) :
  distributed_login env rnd req d = (d', Ok resp) ->
  status resp = HTTP_200_OK ->
  uuid4 rnd <> get_default (lr_referral_code req) EmptyString ->
  Forall ledger_invariant (profiles d) ->
  Forall ledger_invariant (profiles d').
Proof.
  unfold distributed_login, lookup_site, BookSite_get_by_api_key,
    authenticate, User_email_exists, User_create_user, UserProfile_create,
    UserProfile_get_by_user, UserProfile_get_by_referral_code,
    UserProfile_save, CreditTransaction_create, UserSiteActivity_create,
    login_response,
    error_response, modify, read, try_except, raise, ret, bind.
  intros H Hst Hfresh Hinv.
  repeat (case_match; simplify_eq/=).
  - match goal with
    | Ht : track_activity _ _ _ _ = _ |- _ =>
        apply track_activity_frame in Ht; rewrite Ht
    end. done.
  - match goal with
    | Hg : objects_get _ _ (profiles _ ++ [_]) = Ok _ |- _ =>
        destruct (objects_get_snoc_cases UserProfile.id _ _ _ _ _ Hg)
          as [[Hin _]|[-> _]]
    end.
    + rewrite save_row_last by (try reflexivity; apply next_id_fresh).
      apply Forall_save_row.
      * apply Forall_app. split; [done|]. by repeat constructor.
      * rewrite Forall_forall in Hinv. specialize (Hinv _ Hin).
        unfold ledger_invariant in *. simpl. lia.
    + match goal with
      | Hn : negb (bool_decide _) = true |- _ =>
          simpl in Hn; by rewrite bool_decide_eq_true_2 in Hn
      end.
  - match goal with
    | Hg : objects_get _ _ (profiles _ ++ [_]) = Ok _ |- _ =>
        destruct (objects_get_snoc_cases UserProfile.id _ _ _ _ _ Hg)
          as [[_ Hne]|[-> Hp]]
    end.
    + match goal with
      | Hn : negb (bool_decide _) = false |- _ =>
          apply negb_false_iff, bool_decide_eq_true_1 in Hn; done
      end.
    + simpl in Hp. apply bool_decide_eq_true_1 in Hp. done.
  - rewrite save_row_last by (try reflexivity; apply next_id_fresh).
    apply Forall_app. split; [done|]. by repeat constructor.
  - rewrite save_row_last by (try reflexivity; apply next_id_fresh).
    apply Forall_app. split; [done|]. by repeat constructor.
Qed.

Lemma distributed_login_keeps_ledger_invariant_witness :
  Forall ledger_invariant
    (profiles
       (distributed_login Sample.env Sample.oracle
          (mkLoginRequest (Some "key-alpha") (Some "carol@example.com")
             (Some "looking-glass") (Some "REF-ALICE") None None)
          Sample.db).1).
Proof.
  eapply (distributed_login_keeps_ledger_invariant Sample.env Sample.oracle
            (mkLoginRequest (Some "key-alpha") (Some "carol@example.com")
               (Some "looking-glass") (Some "REF-ALICE") None None)
            Sample.db).
  - vm_compute. reflexivity.
  - reflexivity.
  - discriminate.
  - repeat constructor.
Defined.

(** ** The credit ledger, continued *)

Lemma update_credits_keeps_ledger_invariant_witness :
  Forall ledger_invariant
    (profiles
       (update_credits
          (mkCreditsRequest (Some "key-alpha") 1 (Some (-3)) (Some "spent")
             None) Sample.db).1).
Proof.
  eapply (update_credits_keeps_ledger_invariant
            (mkCreditsRequest (Some "key-alpha") 1 (Some (-3)) (Some "spent")
               None) Sample.db).
  - vm_compute. reflexivity.
  - repeat constructor.
Defined.

(** X16: no credit update, whatever its kind, amount or outcome, takes a balance
    below zero: if every balance is non-negative before the call, every
    balance is non-negative after it. *)
Theorem update_credits_never_overdraws (req : CreditsRequest) (d d' : DB)
    (r : Result Response) :
  update_credits req d = (d', r) ->
  Forall (fun p => 0 <= UserProfile.credits p) (profiles d) ->
  Forall (fun p => 0 <= UserProfile.credits p) (profiles d').
Proof.
  unfold update_credits, lookup_site, BookSite_get_by_api_key,
    UserProfile_get_by_user, UserProfile_save, CreditTransaction_create,
    InsufficientBalance, error_response, modify, read, try_except, raise,
    ret, bind.
  intros H Hinv.
  repeat (case_match; simplify_eq/=); try done.
  all: apply Forall_save_row; [done|].
  all: match goal with
       | Hg : objects_get _ _ (profiles _) = Ok ?p |- _ =>
           apply objects_get_Ok in Hg as [Hin _];
           rewrite Forall_forall in Hinv; specialize (Hinv _ Hin);
           simpl in *; lia
       end.
Qed.

Lemma update_credits_never_overdraws_witness :
  Forall (fun p => 0 <= UserProfile.credits p)
    (profiles
       (update_credits
          (mkCreditsRequest (Some "key-alpha") 1 (Some 5) (Some "spent") None)
          Sample.db).1).
Proof.
  eapply (update_credits_never_overdraws
            (mkCreditsRequest (Some "key-alpha") 1 (Some 5) (Some "spent")
               None) Sample.db).
  - vm_compute. reflexivity.
  - repeat constructor. simpl. lia.
Defined.

Lemma exchange_auth_code_single_use_witness :
  let req := mkExchangeRequest (Some "AC_tok") (Some "key-beta") in
  exchange_auth_code (mkEnv 1100 true) req
    (exchange_auth_code Sample.env req Sample.db_with_code).1
  = ((exchange_auth_code Sample.env req Sample.db_with_code).1,
     Ok InvalidOrExpiredCode).
Proof.
  intros req.
  eapply (exchange_auth_code_single_use Sample.env (mkEnv 1100 true) req req
            Sample.db_with_code _ _ Sample.beta).
  - vm_compute. reflexivity.
  - reflexivity.
  - exact sample_activities_wf.
  - reflexivity.
  - reflexivity.
  - vm_compute. reflexivity.
Defined.

(** ** Unlocking a chapter *)

(** X17: what an unlock answered 200 did: the book entry belongs to the
    caller's account, the price was covered, the account row was saved with
    the balance lowered by the chapter price and the entry with one more
    unlocked chapter; users, sites, books, cache and the transaction log are
    as before (no ledger row is written for an unlock). *)
Theorem unlock_chapter_success (req : UnlockRequest) (d d' : DB)
    (resp : Response) :
  unlock_chapter req d = (d', Ok resp) ->
  status resp = HTTP_200_OK ->
  exists owner user_book book account,
    UserProfile_get_by_user (ur_user req) d = (d, Ok owner)
    /\ user_book ∈ user_books d
    /\ UserBook.id user_book = ur_pk req
    /\ UserBook.user user_book = UserProfile.id owner
    /\ Book_get_by_id (UserBook.book user_book) d = (d, Ok book)
    /\ UserProfile_get_by_id (UserProfile.id owner) d = (d, Ok account)
    /\ Book.chapter_credit_cost book <= UserProfile.credits account
    /\ d' = with_user_books
              (save_row UserBook.id
                 (UserBook.mk (UserBook.id user_book)
                    (UserBook.user user_book) (UserBook.book user_book)
                    (UserBook.unlocked_chapters user_book + 1))
                 (user_books d))
              (with_profiles
                 (save_row UserProfile.id
                    (UserProfile.set_credits
                       (UserProfile.credits account
                        - Book.chapter_credit_cost book) account)
                    (profiles d)) d)
    /\ transactions d' = transactions d
    /\ body resp
       = UnlockBody (UserBook.unlocked_chapters user_book + 1)
           (UserProfile.credits account - Book.chapter_credit_cost book).
Proof.
  unfold unlock_chapter, get_object, UserProfile_get_by_user,
    UserProfile_get_by_id, Book_get_by_id, UserProfile_save, UserBook_save,
    error_response, modify, read, try_except, raise, ret, bind.
  intros H Hst.
  repeat (case_match; simplify_eq/=).
  match goal with
  | Hg : objects_get MUserBook _ _ = Ok ?b |- _ =>
      apply objects_get_Ok in Hg as [Hin Hb];
      apply andb_true_iff in Hb as [Hu Hpk];
      apply bool_decide_eq_true_1 in Hu, Hpk
  end.
  eexists _, _, _, _. split; [reflexivity|].
  split; [exact Hin|]. split; [exact Hpk|]. split; [exact Hu|].
  split; [by f_equal|]. rewrite <- Hu. split; [by f_equal|].
  split; [by apply Z.leb_le|]. split_and!; reflexivity.
Qed.

Lemma unlock_chapter_success_witness :
  exists owner user_book book account,
    UserProfile_get_by_user 1 Sample.db = (Sample.db, Ok owner)
    /\ UserBook.user user_book = UserProfile.id owner
    /\ Book.chapter_credit_cost book <= UserProfile.credits account
    /\ transactions (unlock_chapter (mkUnlockRequest 1 1) Sample.db).1
       = transactions Sample.db.
Proof.
  destruct (unlock_chapter_success (mkUnlockRequest 1 1) Sample.db _ _
              eq_refl eq_refl)
    as (owner & ub & book & account & Ho & _ & _ & Hu & _ & _ & Hc & _ & Ht
        & _).
  exists owner, ub, book, account. split_and!; [exact Ho|exact Hu|exact Hc|].
  reflexivity.
Defined.


(** X19: another account's book entry cannot be unlocked: asked for an entry
    that is not the caller's, the view answers 404 and debits nobody. *)
Theorem unlock_chapter_foreign_entry (req : UnlockRequest) (d : DB)
    (owner : UserProfile.t) :
  UserProfile_get_by_user (ur_user req) d = (d, Ok owner) ->
  (forall b, b ∈ user_books d -> UserBook.id b = ur_pk req ->
             UserBook.user b <> UserProfile.id owner) ->
  unlock_chapter req d
  = (d, Ok (error_response "Not found." HTTP_404_NOT_FOUND)).
Proof.
  intros Howner Hforeign.
  unfold unlock_chapter, get_object. unfold bind at 1. unfold bind at 1.
  rewrite Howner. unfold objects_get.
  rewrite (existsb_false_filter _ (user_books d)); [reflexivity|].
  apply not_true_iff_false. intros Hex.
  apply existsb_exists in Hex as (b & Hin & Hb).
  apply andb_true_iff in Hb as [Hu Hpk].
  apply bool_decide_eq_true_1 in Hu, Hpk.
  apply list_elem_of_In in Hin. by apply (Hforeign b Hin Hpk).
Qed.


Lemma unlock_chapter_foreign_entry_witness :
  unlock_chapter (mkUnlockRequest 1 2) Shelf.db
  = (Shelf.db, Ok (error_response "Not found." HTTP_404_NOT_FOUND)).
Proof.
  apply (unlock_chapter_foreign_entry (mkUnlockRequest 1 2) Shelf.db
           Sample.alice_profile).
  - reflexivity.
  - intros b Hin Hpk. simpl in Hin, Hpk.
    repeat (apply elem_of_cons in Hin as [->|Hin]); try discriminate Hpk.
    + simpl. lia.
    + inversion Hin.
Defined.

(** ** Running the view monad *)

Lemma bind_Ok {A B} (m : M A) (k : A -> M B) (d d1 : DB) (a : A) :
  m d = (d1, Ok a) -> bind m k d = k a d1.
Proof. intros H. unfold bind. by rewrite H. Qed.

Lemma bind_Raise {A B} (m : M A) (k : A -> M B) (d d1 : DB) (e : Exn) :
  m d = (d1, Raise e) -> bind m k d = (d1, Raise e).
Proof. intros H. unfold bind. by rewrite H. Qed.

Lemma try_except_Ok {A} (body handler : M A) (catches : Exn -> bool)
    (d d1 : DB) (a : A) :
  body d = (d1, Ok a) -> try_except body catches handler d = (d1, Ok a).
Proof. intros H. unfold try_except. by rewrite H. Qed.

Lemma try_except_caught {A} (body handler : M A) (catches : Exn -> bool)
    (d d1 : DB) (e : Exn) :
  body d = (d1, Raise e) -> catches e = true ->
  try_except body catches handler d = handler d1.
Proof. intros H Hc. unfold try_except. by rewrite H, Hc. Qed.

Lemma try_except_passed {A} (body handler : M A) (catches : Exn -> bool)
    (d d1 : DB) (e : Exn) :
  body d = (d1, Raise e) -> catches e = false ->
  try_except body catches handler d = (d1, Raise e).
Proof. intros H Hc. unfold try_except. by rewrite H, Hc. Qed.

(** ** Federated login *)



(** Reading back, by a column in which no other row matches, a row just
    saved over its old version. *)
Lemma get_saved_by {A} (key : A -> Z) (m : Model) (P : A -> bool) (x : A)
    (rows : list A) :
  NoDup (key <$> rows) ->
  key x ∈ key <$> rows ->
  List.filter P rows = [] ->
  P x = true ->
  objects_get m P (save_row key x rows) = Ok x.
Proof.
  intros Hnd Hin Hnone Hx. unfold objects_get, save_row.
  rewrite (existsb_key_true _ _ _ Hin).
  assert (List.filter P
            ((fun y => if bool_decide (key y = key x) then x else y) <$> rows)
          = [x]) as ->; [|done].
  induction rows as [|y rows IH]; [inversion Hin|].
  rewrite fmap_cons in Hnd, Hin. apply NoDup_cons in Hnd as [Hfresh Hnd].
  simpl in Hnone. destruct (P y) eqn:Hy; [done|].
  rewrite fmap_cons. cbn [List.filter].
  destruct (decide (key y = key x)) as [E|E].
  - rewrite (bool_decide_eq_true_2 _ E), Hx. f_equal.
    rewrite fmap_id_on; [done|]. intros z Hz.
    rewrite bool_decide_eq_false_2; [done|]. intros E'.
    apply Hfresh. rewrite E, <- E'. by apply list_elem_of_fmap_2.
  - rewrite (bool_decide_eq_false_2 _ E), Hy. apply IH; [done| |done].
    apply elem_of_cons in Hin as [Hin|Hin]; [congruence|done].
Qed.


(** X14: a token the identity provider does not verify is refused before
    anything is looked up or written: 401 "Invalid Google token" when the
    verifier raises ValueError, 500 "Login failed" for any other failure. *)
Theorem google_sso_login_bad_token (env : Env) (rnd : Oracle)
    (req : GoogleRequest) (d : DB) (site : BookSite.t) (token : string)
    (e : Exn) :
  truthy (gr_api_key req) = true ->
  BookSite_get_by_api_key (get_default (gr_api_key req) EmptyString) d
    = (d, Ok site) ->
  gr_google_token req = Some token -> token <> EmptyString ->
  verify_oauth2_token rnd token = Raise e ->
  google_sso_login env rnd req d
  = (d, Ok (if bool_decide (e = ValueError)
            then error_response "Invalid Google token" HTTP_401_UNAUTHORIZED
            else error_response "Login failed"
                   HTTP_500_INTERNAL_SERVER_ERROR)).
Proof.
  intros Hkey Hsite Htok Hne Hverify.
  unfold google_sso_login. rewrite Hkey, Htok. cbn [truthy get_default].
  rewrite (bool_decide_eq_false_2 _ Hne). cbn [negb orb].
  erewrite bind_Ok; [|apply lookup_site_found; exact Hsite].
  cbn beta iota.
  assert (forall k : IdInfo -> M Response,
            bind (lift (verify_oauth2_token rnd token)) k d = (d, Raise e))
    as Hbody.
  { intros k. apply bind_Raise. unfold lift. by rewrite Hverify. }
  destruct (decide (e = ValueError)) as [->|Hother].
  - rewrite bool_decide_eq_true_2 by done.
    apply try_except_Ok.
    erewrite try_except_caught; [reflexivity|apply Hbody|reflexivity].
  - rewrite (bool_decide_eq_false_2 _ Hother).
    erewrite try_except_caught; [reflexivity| |reflexivity].
    apply try_except_passed; [apply Hbody|].
    unfold only. by apply bool_decide_eq_false_2.
Qed.


Lemma google_sso_login_bad_token_witness :
  google_sso_login Sample.env Sample.oracle
    (mkGoogleRequest (Some "key-alpha") (Some "forged") None) Sample.db
  = (Sample.db,
     Ok (error_response "Invalid Google token" HTTP_401_UNAUTHORIZED)).
Proof.
  apply (google_sso_login_bad_token Sample.env Sample.oracle
           (mkGoogleRequest (Some "key-alpha") (Some "forged") None)
           Sample.db Sample.alpha "forged" ValueError);
    try reflexivity.
  discriminate.
Defined.

(** ** Cross-promotion links *)

Lemma append_inj_r (p a b : string) :
  String.append p a = String.append p b -> a = b.
Proof. induction p as [|c p IH]; simpl; [done|]. intros [= H]. auto. Qed.

Lemma promo_key_inj (tokens : nat -> string) (i j : nat) :
  cache_key_of (promo_code tokens i) = cache_key_of (promo_code tokens j) ->
  tokens i = tokens j.
Proof.
  unfold cache_key_of, promo_code. intros H.
  by apply append_inj_r, append_inj_r in H.
Qed.

(** The loop, for tokens that do not repeat: it never fails, writes
    nothing but cache entries, returns one link per site in order, and
    leaves under the [j]-th site's code the caller's id and that site's id
    with a deadline 300 seconds ahead. *)
Lemma issue_promo_links_spec (env : Env) (tokens : nat -> string) (uid : Z)
    (targets : list BookSite.t) (i : nat) (d : DB) :
  NoDup (tokens <$> seq i (length targets)) ->
  exists d',
    issue_promo_links env tokens uid i targets d
    = (d', Ok (imap (fun j s => promo_link s (promo_code tokens (i + j)))
                 targets))
    /\ d' = with_cache (cache d') d
    /\ (forall j s, targets !! j = Some s ->
          cache d' !! cache_key_of (promo_code tokens (i + j))
          = Some (mkAuthData uid (BookSite.id s) (now env + 300),
                  now env + 300))
    /\ (forall k, (forall j, (j < length targets)%nat ->
                     k <> cache_key_of (promo_code tokens (i + j))) ->
          cache d' !! k = cache d !! k).
Proof.
  revert i d. induction targets as [|site rest IH]; intros i d Hnd.
  - exists d. split; [reflexivity|]. split; [by destruct d|].
    split; [intros j s H; inversion H|done].
  - simpl in Hnd. apply NoDup_cons in Hnd as [Hfresh Hnd].
    set (d1 := with_cache
                 (<[cache_key_of (promo_code tokens i) :=
                      (mkAuthData uid (BookSite.id site) (now env + 300),
                       now env + 300)]> (cache d)) d).
    destruct (IH (S i) d1 Hnd) as (d' & Hrun & Hframe & Hstored & Hother).
    exists d'. split; [|split; [|split]].
    + cbn [issue_promo_links]. unfold bind at 1.
      unfold cache_set, modify. fold d1. unfold bind. rewrite Hrun.
      unfold ret. f_equal. f_equal. cbn [imap]. f_equal.
      * by rewrite Nat.add_0_r.
      * apply imap_ext. intros j s _. simpl. f_equal. f_equal. lia.
    + rewrite Hframe. by destruct d.
    + intros [|j] s Hj.
      * injection Hj as <-. rewrite Nat.add_0_r. rewrite Hother.
        { unfold d1. cbn [cache with_cache]. apply lookup_insert_eq. }
        intros j Hlt E. apply promo_key_inj in E.
        apply Hfresh. rewrite E. apply list_elem_of_fmap_2.
        apply elem_of_seq. lia.
      * replace (i + S j)%nat with (S i + j)%nat by lia. by apply Hstored.
    + intros k Hk. rewrite Hother.
      * unfold d1. cbn [cache with_cache]. apply lookup_insert_ne.
        intros E. apply (Hk 0%nat); [simpl; lia|]. by rewrite Nat.add_0_r.
      * intros j Hlt. replace (S i + j)%nat with (i + S j)%nat by lia.
        apply Hk. simpl. lia.
Qed.

Lemma promo_targets_spec (req : PromoRequest) (d : DB) (s : BookSite.t) :
  s ∈ promo_targets req d ->
  s ∈ sites d
  /\ BookSite.is_active s = true
  /\ (truthy (pr_current_site req) = true ->
      BookSite.domain s <> get_default (pr_current_site req) EmptyString).
Proof.
  unfold promo_targets. destruct (truthy (pr_current_site req)).
  - rewrite !filter_elem_of. intros [[Hin Ha] Hd].
    split_and!; [done|done|]. intros _.
    by apply negb_true_iff, bool_decide_eq_false_1 in Hd.
  - rewrite filter_elem_of. intros [Hin Ha]. split_and!; done.
Qed.

(** X20: when the tokens drawn do not repeat, the cross-promotion view never
    fails and writes nothing but cache entries; it lists, in table order,
    the active sites other than the current one and no other site; and
    for each listed site it leaves under that site's code an entry for the
    caller and that site with a deadline 300 seconds ahead. *)
Theorem get_cross_promo_sites_issues (env : Env) (tokens : nat -> string)
    (req : PromoRequest) (d : DB) :
  NoDup (tokens <$> seq 0 (length (promo_targets req d))) ->
  exists d',
    get_cross_promo_sites env tokens req d
    = (d', Ok (imap (fun j s => promo_link s (promo_code tokens j))
                 (promo_targets req d)))
    /\ d' = with_cache (cache d') d
    /\ forall j s, promo_targets req d !! j = Some s ->
         s ∈ sites d
         /\ BookSite.is_active s = true
         /\ (truthy (pr_current_site req) = true ->
             BookSite.domain s
             <> get_default (pr_current_site req) EmptyString)
         /\ cache d' !! cache_key_of (promo_code tokens j)
            = Some (mkAuthData (pr_user req) (BookSite.id s) (now env + 300),
                    now env + 300).
Proof.
  intros Hnd.
  destruct (issue_promo_links_spec env tokens (pr_user req)
              (promo_targets req d) 0 d Hnd)
    as (d' & Hrun & Hframe & Hstored & _).
  exists d'. split; [|split; [exact Hframe|]].
  - unfold get_cross_promo_sites. erewrite bind_Ok; [|reflexivity].
    exact Hrun.
  - intros j s Hj.
    destruct (promo_targets_spec req d s) as (Hin & Ha & Hd);
      [by eapply list_elem_of_lookup_2|].
    split_and!; [done|done|done|]. by apply (Hstored j s).
Qed.


Lemma promo_tokens_NoDup :
  NoDup (Shelf.promo_tokens <$> seq 0 2).
Proof.
  simpl. apply NoDup_cons. split; [|apply NoDup_singleton].
  intros Hin. apply list_elem_of_singleton in Hin. discriminate.
Qed.

Lemma get_cross_promo_sites_issues_witness :
  exists d',
    get_cross_promo_sites Sample.env Shelf.promo_tokens
      (mkPromoRequest 1 None) Sample.db
    = (d', Ok [promo_link Sample.alpha "AC_first";
               promo_link Sample.beta "AC_second"])
    /\ d' = with_cache (cache d') Sample.db.
Proof.
  destruct (get_cross_promo_sites_issues Sample.env Shelf.promo_tokens
              (mkPromoRequest 1 None) Sample.db promo_tokens_NoDup)
    as (d' & Hrun & Hframe & _).
  exists d'. split; [exact Hrun|exact Hframe].
Defined.


(** ** Administration: rotating a site's API key *)

Lemma inj_of_NoDup {A B} (f : A -> B) (rows : list A) (x y : A) :
  NoDup (f <$> rows) -> x ∈ rows -> y ∈ rows -> f x = f y -> x = y.
Proof.
  induction rows as [|z rows IH]; [intros _ H; inversion H|].
  rewrite fmap_cons, NoDup_cons, !elem_of_cons.
  intros [Hnin Hnd] [->|Hx] [->|Hy] Hk; auto.
  - exfalso. apply Hnin. rewrite Hk. by apply list_elem_of_fmap_2.
  - exfalso. apply Hnin. rewrite <- Hk. by apply list_elem_of_fmap_2.
Qed.

(** The rows that pass a filter the saved row fails: those that passed
    before, without the row that was overwritten. *)
Lemma filter_save_row_out {A} (key : A -> Z) (P : A -> bool) (x : A)
    (rows : list A) :
  P x = false ->
  List.filter P (save_row key x rows)
  = List.filter (fun y => P y && negb (bool_decide (key y = key x))) rows.
Proof.
  intros Hx. unfold save_row. destruct (existsb _ rows) eqn:E.
  - clear E. induction rows as [|y rows IH]; [done|].
    rewrite fmap_cons. cbn [List.filter]. rewrite IH.
    destruct (decide (key y = key x)) as [Hy|Hy].
    + rewrite (bool_decide_eq_true_2 _ Hy), Hx. cbn [negb].
      by rewrite andb_false_r.
    + rewrite (bool_decide_eq_false_2 _ Hy). cbn [negb].
      by rewrite andb_true_r.
  - rewrite List.filter_app. simpl. rewrite Hx, app_nil_r.
    apply filter_ext_in. intros y Hy.
    rewrite bool_decide_eq_false_2; [by rewrite andb_true_r|].
    intros Hk. apply list_elem_of_In in Hy.
    apply (list_elem_of_fmap_2 key) in Hy. rewrite Hk in Hy.
    apply existsb_key_true in Hy. congruence.
Qed.

(** X22: regenerating the API key of an active site, when the key drawn is not
    in use: the site row is saved with the new key and nothing else
    changes; from then on the new key resolves to the site, the old key
    resolves to nothing, and every other key resolves as before. *)
Theorem regenerate_api_key_rotates (rnd : Oracle) (d : DB) (site_id : Z)
    (site : BookSite.t) :
  sites_wf (sites d) ->
  BookSite_get_by_pk site_id d = (d, Ok site) ->
  BookSite.is_active site = true ->
  (forall s, s ∈ sites d ->
             BookSite.api_key s <> String.append "bk_" (token_urlsafe rnd)) ->
  let new := String.append "bk_" (token_urlsafe rnd) in
  let site' := BookSite.mk (BookSite.id site) (BookSite.name site)
                 (BookSite.domain site) new true in
  exists d',
    regenerate_api_key rnd "POST" site_id d
      = (d', Ok (mkJson HTTP_200_OK (NewKey new)))
    /\ d' = with_sites (save_row BookSite.id site' (sites d)) d
    /\ lookup_site new d' = (d', Ok (Some site'))
    /\ lookup_site (BookSite.api_key site) d' = (d', Ok None)
    /\ forall k, k <> BookSite.api_key site -> k <> new ->
         (BookSite_get_by_api_key k d').2 = (BookSite_get_by_api_key k d).2.
Proof.
  intros (Hids & Hkeys & Hdoms) Hget Hactive Hunused new site'.
  unfold BookSite_get_by_pk in Hget. injection Hget as Hget.
  pose proof (objects_get_Ok _ _ _ _ Hget) as [Hin Hpk].
  apply bool_decide_eq_true_1 in Hpk.
  set (d' := with_sites (save_row BookSite.id site' (sites d)) d).
  assert (BookSite_save site' d = (d', Ok tt)) as Hsave.
  { unfold BookSite_save.
    destruct (existsb _ (sites d)) eqn:Hex; [exfalso|reflexivity].
    apply existsb_exists in Hex as (y & Hy & Hc).
    apply list_elem_of_In in Hy.
    apply andb_true_iff in Hc as [Hne Hc].
    apply negb_true_iff, bool_decide_eq_false_1 in Hne.
    apply orb_true_iff in Hc as [Hc|Hc]; apply bool_decide_eq_true_1 in Hc.
    - by apply (Hunused y Hy).
    - apply Hne. simpl. f_equal.
      exact (inj_of_NoDup _ _ _ _ Hdoms Hy Hin Hc). }
  exists d'. split_and!.
  - unfold regenerate_api_key. rewrite bool_decide_eq_true_2 by done.
    apply try_except_Ok. unfold BookSite_get_by_pk.
    erewrite bind_Ok; [|rewrite Hget; reflexivity].
    rewrite Hactive. fold new. fold site'.
    erewrite bind_Ok; [|exact Hsave]. reflexivity.
  - reflexivity.
  - apply lookup_site_found. unfold BookSite_get_by_api_key. f_equal.
    cbn [sites d' with_sites].
    apply (get_saved_by BookSite.id).
    + exact Hids.
    + simpl. by apply (list_elem_of_fmap_2 BookSite.id) in Hin.
    + apply existsb_false_filter. apply not_true_iff_false. intros Hex.
      apply existsb_exists in Hex as (y & Hy & Hc).
      apply list_elem_of_In in Hy. apply andb_true_iff in Hc as [Hc _].
      apply bool_decide_eq_true_1 in Hc. by apply (Hunused y Hy).
    + simpl. by rewrite bool_decide_eq_true_2.
  - apply lookup_site_unknown. unfold BookSite_get_by_api_key.
    cbn [sites d' with_sites]. unfold objects_get.
    rewrite filter_save_row_out.
    2:{ simpl. rewrite bool_decide_eq_false_2; [done|].
        intros E. by apply (Hunused site Hin). }
    rewrite existsb_false_filter; [done|].
    apply not_true_iff_false. intros Hex.
    apply existsb_exists in Hex as (y & Hy & Hc).
    apply list_elem_of_In in Hy.
    apply andb_true_iff in Hc as [Hc Hne].
    apply andb_true_iff in Hc as [Hc _].
    apply bool_decide_eq_true_1 in Hc.
    apply negb_true_iff, bool_decide_eq_false_1 in Hne. apply Hne.
    simpl. f_equal. exact (inj_of_NoDup _ _ _ _ Hkeys Hy Hin Hc).
  - intros k Hold Hnew. unfold BookSite_get_by_api_key. simpl.
    unfold objects_get. rewrite filter_save_row_out.
    2:{ simpl. by rewrite bool_decide_eq_false_2. }
    assert (List.filter
              (fun y => bool_decide (BookSite.api_key y = k)
                        && BookSite.is_active y
                        && negb (bool_decide (BookSite.id y
                                              = BookSite.id site')))
              (sites d)
            = List.filter
                (fun y => bool_decide (BookSite.api_key y = k)
                          && BookSite.is_active y) (sites d)) as ->;
      [|done].
    apply filter_ext_in. intros y Hy. apply list_elem_of_In in Hy.
    destruct (decide (BookSite.id y = BookSite.id site')) as [E|E].
    + simpl in E.
      rewrite (inj_of_NoDup _ _ _ _ Hids Hy Hin E).
      rewrite (bool_decide_eq_false_2 (BookSite.api_key site = k));
        [done|congruence].
    + rewrite (bool_decide_eq_false_2 _ E). by rewrite andb_true_r.
Qed.

Lemma sample_sites_wf : sites_wf (sites Sample.db).
Proof.
  split_and!; simpl;
    (apply NoDup_cons; split;
     [intros H; apply list_elem_of_singleton in H; discriminate H
     |apply NoDup_singleton]).
Qed.

Lemma regenerate_api_key_rotates_witness :
  let site' := BookSite.mk 1 "Alpha Books" "alpha.example" "bk_tok" true in
  exists d',
    regenerate_api_key Sample.oracle "POST" 1 Sample.db
      = (d', Ok (mkJson HTTP_200_OK (NewKey "bk_tok")))
    /\ lookup_site "bk_tok" d' = (d', Ok (Some site'))
    /\ lookup_site "key-alpha" d' = (d', Ok None).
Proof.
  intros site'.
  destruct (regenerate_api_key_rotates Sample.oracle Sample.db 1
              Sample.alpha sample_sites_wf)
    as (d' & Hrun & _ & Hnew & Hold & _).
  - reflexivity.
  - reflexivity.
  - intros s Hin. simpl in Hin.
    repeat (apply elem_of_cons in Hin as [->|Hin]); try discriminate.
    inversion Hin.
  - exists d'. split_and!; assumption.
Defined.

(** ** Administration: the user count of a site *)

Lemma track_activity_shape (env : Env) (uid sid : Z) (d d' : DB) :
  track_activity env uid sid d = (d', Ok tt) ->
  (visit_rows uid sid (activities d) = []
   /\ activities d'
      = activities d
        ++ [UserSiteActivity.mk
              (next_id (UserSiteActivity.id <$> activities d)) uid sid 1])
  \/ (exists a,
        visit_rows uid sid (activities d) = [a]
        /\ activities d'
           = save_row UserSiteActivity.id
               (UserSiteActivity.mk (UserSiteActivity.id a)
                  (UserSiteActivity.user a) (UserSiteActivity.site a)
                  (UserSiteActivity.total_visits a + 1))
               (activities d)).
Proof.
  unfold track_activity, UserSiteActivity_get_or_create,
    UserSiteActivity_create, UserSiteActivity_save, objects_get, visit_rows,
    ret, bind.
  intros H.
  destruct (negb (activity_storage_ok env)); [done|].
  destruct (List.filter (same_pair uid sid) (activities d))
    as [|a [|b rest]] eqn:Hrows; [| |done].
  - rewrite (filter_nil_existsb _ _ Hrows) in H. cbn in H.
    injection H as <-. left. done.
  - cbn in H. injection H as <-. right. exists a. done.
Qed.

Lemma UserSiteActivity_create_shape (env : Env) (uid sid : Z) (d d' : DB)
    (a : UserSiteActivity.t) :
  UserSiteActivity_create env uid sid 1 d = (d', Ok a) ->
  visit_rows uid sid (activities d) = []
  /\ activities d'
     = activities d
       ++ [UserSiteActivity.mk
             (next_id (UserSiteActivity.id <$> activities d)) uid sid 1].
Proof.
  unfold UserSiteActivity_create. intros H.
  destruct (negb (activity_storage_ok env)); [done|].
  destruct (existsb _ (activities d)) eqn:E; [done|].
  injection H as <- _. split; [|done]. by apply existsb_false_filter.
Qed.

(** X23: the user count of a site counts accounts, not visits.  A login or
    redemption answered 200 is answered with an account row of the
    database, and it is the visit of that account through the caller's
    site that the activity table records; the count of the caller's site
    rises by one when that account had no activity row there before and
    is unchanged when it had one; the count of every other site is
    unchanged. *)
Theorem total_users_counts_accounts (env : Env) (v : Visit) (d d' : DB)
    (resp : Response) (obj : BookSite.t) :
  activities_wf (activities d) ->
  visit env v d = (d', Ok resp) ->
  status resp = HTTP_200_OK ->
  exists site profile user is_new n,
    BookSite_get_by_api_key (visit_api_key v) d = (d, Ok site)
    /\ resp = login_response user profile is_new
    /\ profile ∈ profiles d'
    /\ UserProfile.user profile = User.id user
    /\ visit_recorded (UserProfile.id profile) (BookSite.id site)
         (activities d) (activities d')
    /\ total_users obj d = (d, Ok n)
    /\ (BookSite.id obj = BookSite.id site ->
        visit_rows (UserProfile.id profile) (BookSite.id site) (activities d)
          = [] ->
        total_users obj d' = (d', Ok (n + 1)))
    /\ (BookSite.id obj = BookSite.id site ->
        visit_rows (UserProfile.id profile) (BookSite.id site) (activities d)
          <> [] ->
        total_users obj d' = (d', Ok n))
    /\ (BookSite.id obj <> BookSite.id site ->
        total_users obj d' = (d', Ok n)).
Proof.
  intros Hwf Hrun Hst.
  apply visit_arrives in Hrun; [|done].
  destruct Hrun as (site & profile & user & is_new & d1 & Hsite & -> & Hin
                    & Hu & Hacts & Hstep).
  assert (profile ∈ profiles d'
          /\ visit_recorded (UserProfile.id profile) (BookSite.id site)
               (activities d) (activities d')
          /\ ((visit_rows (UserProfile.id profile) (BookSite.id site)
                 (activities d) = []
               /\ activities d'
                  = activities d
                    ++ [UserSiteActivity.mk
                          (next_id (UserSiteActivity.id <$> activities d))
                          (UserProfile.id profile) (BookSite.id site) 1])
              \/ (exists a,
                    visit_rows (UserProfile.id profile) (BookSite.id site)
                      (activities d) = [a]
                    /\ activities d'
                       = save_row UserSiteActivity.id
                           (UserSiteActivity.mk (UserSiteActivity.id a)
                              (UserSiteActivity.user a)
                              (UserSiteActivity.site a)
                              (UserSiteActivity.total_visits a + 1))
                           (activities d))))
    as (Hin' & Hrec & Hshape).
  { rewrite <- Hacts in Hwf |- *. destruct Hstep as [Ht|[a Hc]].
    - pose proof (track_activity_shape _ _ _ _ _ Ht) as Hshape.
      apply track_activity_Ok in Ht as (_ & Hd' & _ & Hrec); [|done].
      split_and!; [by rewrite Hd'|done|done].
    - pose proof (UserSiteActivity_create_shape _ _ _ _ _ _ Hc) as Hshape.
      apply UserSiteActivity_create_Ok in Hc as (_ & Hd' & _ & Hrec);
        [|done].
      split_and!; [by rewrite Hd'|done|by left]. }
  set (at_site := fun a : UserSiteActivity.t =>
                    bool_decide (UserSiteActivity.site a = BookSite.id obj)).
  assert (Z.of_nat (length (List.filter at_site (activities d')))
          = Z.of_nat (length (List.filter at_site (activities d)))
            + (if bool_decide (BookSite.id obj = BookSite.id site)
               then match visit_rows (UserProfile.id profile)
                            (BookSite.id site) (activities d) with
                    | [] => 1
                    | _ => 0
                    end
               else 0)) as Hcount.
  { unfold at_site.
    destruct Hshape as [[Hnone ->]|(a & Hrow & ->)].
    - rewrite Hnone, List.filter_app, length_app. simpl.
      rewrite (bool_decide_ext (BookSite.id site = BookSite.id obj)
                 (BookSite.id obj = BookSite.id site)) by done.
      destruct (bool_decide (BookSite.id obj = BookSite.id site)); simpl; lia.
    - rewrite Hrow.
      assert (a ∈ activities d) as Ha.
      { apply (filter_elem_of (same_pair (UserProfile.id profile)
                                 (BookSite.id site))).
        unfold visit_rows in Hrow. rewrite Hrow. apply list_elem_of_here. }
      unfold save_row. rewrite existsb_key_true
        by (by apply (list_elem_of_fmap_2 UserSiteActivity.id) in Ha).
      rewrite filter_fmap_commute, length_fmap.
      + destruct (bool_decide _); lia.
      + intros y Hy. simpl.
        destruct (decide (UserSiteActivity.id y = UserSiteActivity.id a))
          as [E|E].
        * rewrite (bool_decide_eq_true_2 _ E).
          by rewrite (key_inj_of_NoDup _ _ _ _ (proj1 Hwf) Hy Ha E).
        * by rewrite (bool_decide_eq_false_2 _ E). }
  exists site, profile, user, is_new,
    (Z.of_nat (length (List.filter at_site (activities d)))).
  split; [exact Hsite|]. split; [reflexivity|]. split; [exact Hin'|].
  split; [exact Hu|]. split; [exact Hrec|]. split; [reflexivity|].
  unfold total_users, read. fold at_site. rewrite Hcount.
  split_and!.
  - intros Hobj Hnone. by rewrite (bool_decide_eq_true_2 _ Hobj), Hnone.
  - intros Hobj Hsome. rewrite (bool_decide_eq_true_2 _ Hobj).
    destruct (visit_rows _ _ (activities d)); [done|].
    by rewrite Z.add_0_r.
  - intros Hobj. rewrite (bool_decide_eq_false_2 _ Hobj).
    by rewrite Z.add_0_r.
Qed.

(** Alice's first login through alpha.example raises its count from 0 to
    1; her next login there leaves it at 1. *)
Lemma total_users_counts_accounts_witness :
  total_users Sample.alpha Runs.after_one_login
    = (Runs.after_one_login, Ok 1)
  /\ total_users Sample.alpha Runs.after_two_logins
     = (Runs.after_two_logins, Ok 1).
Proof.
  split.
  - destruct (total_users_counts_accounts Sample.env Runs.alice_login
                Sample.db Runs.after_one_login
                (login_response Sample.alice Sample.alice_profile
                   (Some false))
                Sample.alpha sample_activities_wf)
      as (site & profile & user & is_new & n & Hsite & _ & Hin & _ & _ & Hn
          & Hfirst & _ & _).
    + vm_compute. reflexivity.
    + reflexivity.
    + assert (site = Sample.alpha) as ->.
      { assert (BookSite_get_by_api_key (visit_api_key Runs.alice_login)
                  Sample.db = (Sample.db, Ok Sample.alpha)) as E
          by reflexivity.
        rewrite E in Hsite. by injection Hsite. }
      assert (profile = Sample.alice_profile) as ->.
      { assert (profiles Runs.after_one_login = [Sample.alice_profile]) as E
          by (vm_compute; reflexivity).
        rewrite E in Hin. by apply list_elem_of_singleton in Hin. }
      assert (n = 0) as ->.
      { assert (total_users Sample.alpha Sample.db = (Sample.db, Ok 0)) as E
          by reflexivity.
        rewrite E in Hn. by injection Hn. }
      apply Hfirst; reflexivity.
  - destruct (total_users_counts_accounts Sample.env Runs.alice_login
                Runs.after_wrong_password Runs.after_two_logins
                (login_response Sample.alice Sample.alice_profile
                   (Some false))
                Sample.alpha)
      as (site & profile & user & is_new & n & Hsite & _ & Hin & _ & _ & Hn
          & _ & Hagain & _).
    + split; [vm_compute; repeat constructor; set_solver|].
      intros uid sid. vm_compute.
      repeat case_match; simpl; lia.
    + vm_compute. reflexivity.
    + reflexivity.
    + assert (site = Sample.alpha) as ->.
      { assert (BookSite_get_by_api_key (visit_api_key Runs.alice_login)
                  Runs.after_wrong_password
                = (Runs.after_wrong_password, Ok Sample.alpha)) as E
          by (vm_compute; reflexivity).
        rewrite E in Hsite. by injection Hsite. }
      assert (profile = Sample.alice_profile) as ->.
      { assert (profiles Runs.after_two_logins = [Sample.alice_profile]) as E
          by (vm_compute; reflexivity).
        rewrite E in Hin. by apply list_elem_of_singleton in Hin. }
      assert (n = 1) as ->.
      { assert (total_users Sample.alpha Runs.after_wrong_password
                = (Runs.after_wrong_password, Ok 1)) as E
          by (vm_compute; reflexivity).
        rewrite E in Hn. by injection Hn. }
      apply Hagain; [reflexivity|]. vm_compute. discriminate.
Defined.

(** ** Administration: masking an auth code *)

Lemma substring_all (s : string) :
  String.substring 0 (String.length s) s = s.
Proof. induction s as [|c s IH]; simpl; [done|]. by rewrite IH. Qed.

Lemma substring_split (n : nat) (s : string) :
  s = String.append (String.substring 0 n s)
        (String.substring n (String.length s - n) s).
Proof.
  revert s. induction n as [|n IH]; intros s.
  - rewrite Nat.sub_0_r, substring_all. by destruct s.
  - destruct s as [|c s]; [done|].
    change (String c s
            = String c (String.append (String.substring 0 n s)
                          (String.substring n (String.length s - n) s))).
    f_equal. apply IH.
Qed.

Lemma substring_short (n : nat) (s : string) :
  (String.length s <= n)%nat -> String.substring 0 n s = s.
Proof.
  revert n. induction s as [|c s IH]; intros n Hn; [by destruct n|].
  destruct n as [|n]; simpl in *; [lia|]. rewrite IH; [done|lia].
Qed.

Lemma substring_length (n m : nat) (s : string) :
  String.length (String.substring n m s) = (m `min` (String.length s - n))%nat.
Proof.
  revert n m. induction s as [|c s IH]; intros n m.
  - destruct n, m; simpl; lia.
  - destruct n as [|n]; simpl.
    + destruct m as [|m]; simpl; [done|]. rewrite IH. lia.
    + apply IH.
Qed.

Lemma substring_prefix_prefix (a b : nat) (s : string) :
  (a <= b)%nat ->
  String.substring 0 a (String.substring 0 b s) = String.substring 0 a s.
Proof.
  revert a b. induction s as [|c s IH]; intros a b Hab.
  - destruct a, b; done.
  - destruct a as [|a]; [by destruct b|].
    destruct b as [|b]; [lia|]. simpl. rewrite IH; [done|lia].
Qed.

Lemma append_length (a b : string) :
  String.length (String.append a b)
  = (String.length a + String.length b)%nat.
Proof.
  induction a as [|c a IH]; [done|].
  change (S (String.length (String.append a b))
          = S (String.length a + String.length b)). by rewrite IH.
Qed.

Lemma append_assoc (a b c : string) :
  String.append (String.append a b) c = String.append a (String.append b c).
Proof.
  induction a as [|x a IH]; [done|].
  change (String x (String.append (String.append a b) c)
          = String x (String.append a (String.append b c))).
  by rewrite IH.
Qed.

(** X24: what the admin list shows of an auth code.  A code of ten characters
    or more is shown as its first five and last five characters around
    three dots, thirteen characters in all, and the characters between are
    not shown.  A code of one to five characters is not masked at all: it
    is shown in full, twice.  An empty code is shown as "No code". *)
Theorem code_display_masks (code : string) :
  ((10 <= String.length code)%nat ->
   exists first hidden last,
     code = String.append first (String.append hidden last)
     /\ String.length first = 5%nat
     /\ String.length last = 5%nat
     /\ String.length hidden = (String.length code - 10)%nat
     /\ code_display code
        = String.append first (String.append "..." last)
     /\ String.length (code_display code) = 13%nat)
  /\ ((0 < String.length code <= 5)%nat ->
      code_display code
      = String.append code (String.append "..." code))
  /\ (code = EmptyString -> code_display code = "No code").
Proof.
  split_and!.
  - intros Hlen.
    assert (code_display code
            = String.append (py_prefix 5 code)
                (String.append "..." (py_suffix 5 code))) as Hshow.
    { unfold code_display. destruct code; [simpl in Hlen; lia|done]. }
    set (body := String.substring 0 (String.length code - 5) code).
    assert (String.length body = (String.length code - 5)%nat) as Hbody
      by (unfold body; rewrite substring_length; lia).
    assert (code = String.append body (py_suffix 5 code)) as Hcut.
    { unfold py_suffix, body.
      rewrite (substring_split (String.length code - 5) code) at 1.
      do 2 f_equal. lia. }
    assert (py_prefix 5 code = String.substring 0 5 body) as Hfirst.
    { unfold py_prefix, body. rewrite substring_prefix_prefix; [done|lia]. }
    exists (py_prefix 5 code),
           (String.substring 5 (String.length body - 5) body),
           (py_suffix 5 code).
    split_and!.
    + rewrite Hfirst, <- append_assoc, <- substring_split. exact Hcut.
    + unfold py_prefix. rewrite substring_length. lia.
    + unfold py_suffix. rewrite substring_length. lia.
    + rewrite substring_length. lia.
    + exact Hshow.
    + rewrite Hshow, !append_length. unfold py_prefix, py_suffix.
      rewrite !substring_length.
      change (String.length "...") with 3%nat. lia.
  - intros [Hpos Hlen]. unfold code_display.
    destruct code as [|c code]; [simpl in Hpos; lia|].
    cbn [truthy]. rewrite bool_decide_eq_false_2 by done. cbn [negb].
    unfold py_prefix, py_suffix.
    replace (String.length (String c code) - 5)%nat with 0%nat by lia.
    by rewrite substring_short.
  - intros ->. reflexivity.
Qed.

Lemma code_display_masks_witness :
  code_display "AC_0123456789abcdefghijkl" = "AC_01...hijkl"
  /\ exists first hidden last,
       "AC_0123456789abcdefghijkl"
       = String.append first (String.append hidden last)
       /\ String.length hidden = 15%nat.
Proof.
  split; [reflexivity|].
  destruct (proj1 (code_display_masks "AC_0123456789abcdefghijkl"))
    as (first & hidden & last & Hcode & _ & _ & Hhidden & _).
  - simpl. lia.
  - exists first, hidden, last. split; [exact Hcode|exact Hhidden].
Defined.

(** ** Handoff codes, continued *)

Lemma no_active_domain_lookup (dom : string) (d : DB) :
  (forall s, s ∈ sites d -> BookSite.domain s = dom ->
             BookSite.is_active s = false) ->
  BookSite_get_by_domain dom d = (d, Raise (DoesNotExist MBookSite)).
Proof.
  intros Hnone. unfold BookSite_get_by_domain, objects_get.
  rewrite (existsb_false_filter _ (sites d)); [done|].
  apply not_true_iff_false. intros Hex.
  apply existsb_exists in Hex as (s & Hin & Hs).
  apply andb_true_iff in Hs as [Hk Ha].
  apply bool_decide_eq_true_1 in Hk.
  apply list_elem_of_In in Hin. rewrite (Hnone s Hin Hk) in Ha. done.
Qed.

(** X5: no handoff code is issued for a destination that is missing from the
    request, not registered, or deactivated: the view answers 400 and
    stores nothing. *)
Theorem generate_auth_code_refuses (env : Env) (rnd : Oracle)
    (req : GenerateRequest) (d : DB) :
  truthy (gen_target_site req) = false
  \/ (forall s, s ∈ sites d ->
        BookSite.domain s = get_default (gen_target_site req) EmptyString ->
        BookSite.is_active s = false) ->
  exists resp,
    generate_auth_code env rnd req d = (d, Ok resp)
    /\ status resp = HTTP_400_BAD_REQUEST.
Proof.
  intros [Hmissing|Hnone]; unfold generate_auth_code.
  - rewrite Hmissing. by eexists.
  - destruct (truthy (gen_target_site req)); [|by eexists].
    cbn [negb].
    erewrite bind_Ok.
    2:{ erewrite try_except_caught;
          [reflexivity
          |apply bind_Raise; by apply no_active_domain_lookup
          |reflexivity]. }
    by eexists.
Qed.

Lemma generate_auth_code_refuses_witness :
  exists resp,
    generate_auth_code Sample.env Sample.oracle
      (mkGenerateRequest 1 (Some "gamma.example")) Network.db
    = (Network.db, Ok resp)
    /\ status resp = HTTP_400_BAD_REQUEST.
Proof.
  apply (generate_auth_code_refuses Sample.env Sample.oracle
           (mkGenerateRequest 1 (Some "gamma.example")) Network.db).
  right. intros s Hin Hdom. simpl in Hin, Hdom.
  repeat (apply elem_of_cons in Hin as [->|Hin]); try discriminate Hdom.
  - reflexivity.
  - inversion Hin.
Defined.

(** X4: a redemption that finds the code but no longer finds its user answers
    404 "User not found", and the code is consumed all the same: the
    delete comes before the user lookup. *)
Theorem exchange_auth_code_user_gone (env : Env) (req : ExchangeRequest)
    (d : DB) (site : BookSite.t) (auth_data : AuthData) (deadline : Z) :
  truthy (ex_api_key req) = true ->
  truthy (ex_code req) = true ->
  BookSite_get_by_api_key (get_default (ex_api_key req) EmptyString) d
    = (d, Ok site) ->
  cache d !! cache_key_of (get_default (ex_code req) EmptyString)
    = Some (auth_data, deadline) ->
  now env < deadline ->
  ad_target_site_id auth_data = BookSite.id site ->
  User_get_by_id (ad_user_id auth_data) d = (d, Raise (DoesNotExist MUser)) ->
  exchange_auth_code env req d
  = (with_cache
       (delete (cache_key_of (get_default (ex_code req) EmptyString))
          (cache d)) d,
     Ok (error_response "User not found" HTTP_404_NOT_FOUND)).
Proof.
  intros Hkey Hcode Hsite Hcache Hnow Htarget Huser.
  unfold exchange_auth_code. rewrite Hkey, Hcode. cbn [negb orb].
  erewrite bind_Ok; [|apply lookup_site_found; exact Hsite].
  cbn beta iota zeta.
  erewrite bind_Ok.
  2:{ unfold cache_get, read. rewrite Hcache.
      apply Z.ltb_lt in Hnow. rewrite Hnow. reflexivity. }
  cbn beta iota. rewrite bool_decide_eq_true_2 by done. cbn [negb].
  erewrite bind_Ok; [|reflexivity].
  erewrite bind_Ok.
  2:{ erewrite try_except_caught;
        [reflexivity
        |apply bind_Raise; unfold User_get_by_id in *;
         injection Huser as Huser; cbn [users with_cache];
         by rewrite Huser
        |reflexivity]. }
  reflexivity.
Qed.

Lemma exchange_auth_code_user_gone_witness :
  let d := with_cache
             {[ cache_key_of "AC_old" := (mkAuthData 7 2 1300, 1300) ]}
             Sample.db in
  exchange_auth_code Sample.env
    (mkExchangeRequest (Some "AC_old") (Some "key-beta")) d
  = (with_cache (delete (cache_key_of "AC_old") (cache d)) d,
     Ok (error_response "User not found" HTTP_404_NOT_FOUND)).
Proof.
  intros d.
  apply (exchange_auth_code_user_gone Sample.env
           (mkExchangeRequest (Some "AC_old") (Some "key-beta")) d
           Sample.beta (mkAuthData 7 2 1300) 1300);
    reflexivity.
Defined.

(** ** Password login of a returning user *)



(** ** Federated provisioning with a referral code *)

(** X13: a federated login that provisions a new account (answer 200 with
    [is_new_user]) with a referral code that resolves to an existing
    account grants what the password path grants: the new row has balance
    10 and lifetime-earned 10 and names its referrer, the referrer's balance
    and lifetime-earned rise by 10, and exactly two transactions are
    appended, a welcome_bonus of 10 and a referral_bonus of 10. *)
Theorem google_sso_login_referral_bonus (env : Env) (rnd : Oracle)
    (req : GoogleRequest) (d d' : DB) (user : User.t) (credits : Z)
    (code : string) (referrer : UserProfile.t) :
  google_sso_login env rnd req d
    = (d', Ok (mkResponse HTTP_200_OK
                 (LoginBody user credits code (Some true)))) ->
  truthy (gr_referral_code req) = true ->
  UserProfile_get_by_referral_code
    (get_default (gr_referral_code req) EmptyString) d
    = (d, Ok referrer) ->
  NoDup (UserProfile.id <$> profiles d) ->
  exists profile referrer' t1 t2,
    UserProfile.id profile = next_id (UserProfile.id <$> profiles d)
    /\ UserProfile.id profile <> UserProfile.id referrer
    /\ UserProfile_get_by_id (UserProfile.id profile) d' = (d', Ok profile)
    /\ UserProfile.user profile = User.id user
    /\ UserProfile.credits profile = 10
    /\ credits = 10
    /\ UserProfile.total_credits_earned profile = 10
    /\ UserProfile.total_credits_spent profile = 0
    /\ UserProfile.referred_by profile = Some (UserProfile.id referrer)
    /\ UserProfile_get_by_id (UserProfile.id referrer) d' = (d', Ok referrer')
    /\ UserProfile.credits referrer' = UserProfile.credits referrer + 10
    /\ UserProfile.total_credits_earned referrer'
       = UserProfile.total_credits_earned referrer + 10
    /\ UserProfile.total_credits_spent referrer'
       = UserProfile.total_credits_spent referrer
    /\ transactions d' = transactions d ++ [t1; t2]
    /\ CreditTransaction.user t1 = UserProfile.id profile
    /\ CreditTransaction.transaction_type t1 = "welcome_bonus"
    /\ CreditTransaction.amount t1 = 10
    /\ CreditTransaction.user t2 = UserProfile.id referrer
    /\ CreditTransaction.transaction_type t2 = "referral_bonus"
    /\ CreditTransaction.amount t2 = 10.
Proof.
  intros H Hrc Href Hnd.
  unfold UserProfile_get_by_referral_code in Href. injection Href as Href.
  revert H.
  unfold google_sso_login, lookup_site, BookSite_get_by_api_key,
    UserProfile_get_by_google_id, User_get_by_id, User_get_by_email,
    User_create_user, UserProfile_create,
    UserProfile_get_by_user, UserProfile_get_by_referral_code,
    UserProfile_save, CreditTransaction_create, login_response, item, lift,
    error_response, modify, read, try_except, raise, ret, bind,
    only, either, any_exception.
  intros H.
  repeat (case_match; simplify_eq/=).
  all: try (match goal with
    | Hg : objects_get _ _ (profiles _ ++ [_]) = Raise ?e |- _ =>
        pose proof (objects_get_snoc_found _ _ _ _ _ _ Href Hg) as ->
    end; done).
  all: match goal with
    | Hg : objects_get _ _ (profiles _ ++ [_]) = Ok _ |- _ =>
        destruct (objects_get_snoc _ _ _ _ _ _ Href Hg) as [-> _]; clear Hg
    end.
  all: try (match goal with
    | Hn : negb (bool_decide _) = false,
      Hr : objects_get _ _ (profiles ?d0) = Ok _ |- _ =>
        apply negb_false_iff, bool_decide_eq_true_1 in Hn;
        exfalso; apply objects_get_Ok in Hr as [Hin _];
        apply (next_id_fresh UserProfile.id (profiles d0)); rewrite <- Hn;
        by apply list_elem_of_fmap_2
    end).
  all: match goal with
    | Hn : negb (bool_decide _) = true |- _ =>
        apply negb_true_iff, bool_decide_eq_false_1 in Hn; rename Hn into Hne
    end.
  all: match goal with
    | Ht : track_activity _ _ _ _ = (_, _) |- _ =>
        pose proof (track_activity_frame _ _ _ _ _ _ Ht) as Hd'; clear Ht
    end.
  all: match goal with
    | Hs : sub _ = Some ?a0 |- _ =>
      match type of Href with
      | objects_get _ _ (profiles ?d0) = _ =>
        assert (NoDup (UserProfile.id <$>
                  profiles d0 ++
                  [UserProfile.mk (next_id (UserProfile.id <$> profiles d0))
                     (next_id (User.id <$> users d0)) a0 (uuid4 rnd) None
                     5 0 0])) as Hnd1
      end
    end.
  1,3,5,7: rewrite fmap_app; apply NoDup_app;
    (split_and!; [done| |apply NoDup_singleton]);
    intros k Hk Hk'; apply list_elem_of_singleton in Hk'; subst k;
    by apply next_id_fresh in Hk.
  all: match goal with
    | Hs : sub _ = Some ?a0 |- _ =>
      match type of Href with
      | objects_get _ _ (profiles ?d0) = _ =>
        exists (UserProfile.mk (next_id (UserProfile.id <$> profiles d0))
                  (next_id (User.id <$> users d0)) a0 (uuid4 rnd)
                  (Some (UserProfile.id referrer)) 10 10 0),
               (UserProfile.set_total_credits_earned
                  (UserProfile.total_credits_earned referrer + 10)
                  (UserProfile.set_credits (UserProfile.credits referrer + 10)
                     referrer))
      end
    end.
  all: eexists _, _; (split; [reflexivity|]).
  all: split; [simpl; congruence|].
  all: split;
    [unfold UserProfile_get_by_id; f_equal; rewrite Hd';
     cbn [profiles with_activities with_transactions with_profiles
          with_users];
     rewrite get_other_saved by (simpl; congruence);
     match goal with
     | |- objects_get _ _ (save_row _ ?p _) = _ =>
         apply (get_saved UserProfile.id MUserProfile p)
     end; exact Hnd1|].
  all: do 6 (split; [reflexivity|]).
  all: split;
    [unfold UserProfile_get_by_id; f_equal; rewrite Hd';
     cbn [profiles with_activities with_transactions with_profiles
          with_users];
     match goal with
     | |- objects_get _ _ (save_row _ ?p _) = _ =>
         apply (get_saved UserProfile.id MUserProfile p)
     end; by apply save_row_NoDup|].
  all: do 3 (split; [reflexivity|]).
  all: split; [rewrite Hd'; simpl; by rewrite <- app_assoc|].
  all: split_and!; reflexivity.
Qed.

Lemma google_sso_login_referral_bonus_witness :
  let req := mkGoogleRequest (Some "key-alpha") (Some "bob-token")
               (Some "REF-ALICE") in
  let d' := (google_sso_login Sample.env Sample.oracle req Sample.db).1 in
  exists profile referrer' t1 t2,
    UserProfile_get_by_id 2 d' = (d', Ok profile)
    /\ UserProfile.credits profile = 10
    /\ UserProfile.total_credits_earned profile = 10
    /\ UserProfile_get_by_id 1 d' = (d', Ok referrer')
    /\ UserProfile.credits referrer' = 15
    /\ transactions d' = [t1; t2]
    /\ CreditTransaction.amount t1 = 10
    /\ CreditTransaction.amount t2 = 10.
Proof.
  intros req d'.
  destruct (google_sso_login_referral_bonus Sample.env Sample.oracle req
              Sample.db d'
              (User.mk 2 "bob@example.com" "bob@example.com" None
                       "Bob" EmptyString)
              10 "REF-NEW" Sample.alice_profile)
    as (profile & referrer' & t1 & t2 & Hid & _ & Hp & _ & Hc & _ & He & _ & _
        & Hr & Hrc & _ & _ & Htx & _ & _ & Ht1 & _ & _ & Ht2).
  - vm_compute. reflexivity.
  - reflexivity.
  - reflexivity.
  - simpl. apply NoDup_singleton.
  - exists profile, referrer', t1, t2. rewrite Hid in Hp.
    split_and!; done.
Defined.

(** ** Site activity across the three entry points *)




